(** * AI fertility policy simulator: the projection engine

    A shallow embedding of the arithmetic of [src/pages/index.js]
    (the multi-country page, [simulateTFRImpactForCountry]) and of
    [src/pages/index1.js] (the earlier single-country page,
    [simulateTFRImpact]), with the properties of the projection engine
    stated and proved over it.

    Number model.  A JavaScript Number is idealised as a real number:
    [+], [-], [*] and division by a non-zero constant are the exact
    operations of [R], [Math.exp] is [exp] and [Math.min] is [Rmin].
    Slider values are integers ([parseInt] of a range input), kept in [Z]
    and injected with [IZR].  The one division whose divisor can be zero
    ([roi]) returns a [JS.Number], which has the non-finite values of
    IEEE 754.  Rounding errors of binary64 are outside the model. *)

From Stdlib Require Import String.
From Stdlib Require Import Reals Lra Lia ZArith List.
Import ListNotations.
Open Scope R_scope.

(** ** JavaScript primitives used by the pages *)

Module JS.

(** The result of a division whose divisor may be zero. *)
Inductive Number : Type :=
| Finite (r : R)
| PosInfinity
| NegInfinity
| NaN.

(** [x / y] on finite operands: [0/0] is [NaN], [x/0] is an infinity
    with the sign of [x] (the divisor of [roi] is a sum that starts from
    [0], so a zero divisor is the positive zero). *)
Definition div (x y : R) : Number :=
  if Req_dec_T y 0 then
    if Req_dec_T x 0 then NaN
    else if Rlt_dec 0 x then PosInfinity else NegInfinity
  else Finite (x / y).

(** [Number(x.toFixed(3))]: the multiple of 1/1000 nearest to [x], the
    larger one in magnitude on a tie; the sign is handled apart, as
    [Number.prototype.toFixed] does. *)
Definition toFixed3 (x : R) : R :=
  if Rlt_dec x 0
  then - (IZR (Zfloor (- x * 1000 + / 2)) / 1000)
  else IZR (Zfloor (x * 1000 + / 2)) / 1000.

(** A JS object used as a map with keys in insertion order:
    [obj[k] = v] overwrites in place or appends. *)
Section Obj.
Context {K V : Type} (eqb : K -> K -> bool).

Fixpoint get (o : list (K * V)) (k : K) : option V :=
  match o with
  | [] => None
  | (k', v) :: o' => if eqb k k' then Some v else get o' k
  end.

Fixpoint set (o : list (K * V)) (k : K) (v : V) : list (K * V) :=
  match o with
  | [] => [(k, v)]
  | (k', v') :: o' =>
      if eqb k k' then (k', v) :: o' else (k', v') :: set o' k v
  end.
End Obj.

End JS.

(** ** Data shared by the two pages *)

(** The keys of [policies] and of [aiInterventions]. *)
Inductive PolicyId : Type := aiEducation | workplaceAI | childcareAI | housingAI.

(** The keys of [baseFactors]. *)
Inductive Factor : Type := educationCost | workLifeBalance | childcareCost | housingCost.

(** The keys of [countryData]. *)
Inductive CountryKey : Type := south_korea | japan.

Definition PolicyId_eqb (a b : PolicyId) : bool :=
  match a, b with
  | aiEducation, aiEducation | workplaceAI, workplaceAI
  | childcareAI, childcareAI | housingAI, housingAI => true
  | _, _ => false
  end.

Definition Factor_eqb (a b : Factor) : bool :=
  match a, b with
  | educationCost, educationCost | workLifeBalance, workLifeBalance
  | childcareCost, childcareCost | housingCost, housingCost => true
  | _, _ => false
  end.

(** The [policies] state: one integer slider value per policy. *)
Record Policies : Type := mkPolicies {
  p_aiEducation : Z;
  p_workplaceAI : Z;
  p_childcareAI : Z;
  p_housingAI : Z
}.

(** [policies[policy]] *)
Definition policies_get (policies : Policies) (policy : PolicyId) : Z :=
  match policy with
  | aiEducation => p_aiEducation policies
  | workplaceAI => p_workplaceAI policies
  | childcareAI => p_childcareAI policies
  | housingAI => p_housingAI policies
  end.

(** [{ ...policies, [policy]: v }], the slider's [onChange]. *)
Definition policies_set (policies : Policies) (policy : PolicyId) (v : Z) : Policies :=
  match policy with
  | aiEducation => mkPolicies v (p_workplaceAI policies) (p_childcareAI policies) (p_housingAI policies)
  | workplaceAI => mkPolicies (p_aiEducation policies) v (p_childcareAI policies) (p_housingAI policies)
  | childcareAI => mkPolicies (p_aiEducation policies) (p_workplaceAI policies) v (p_housingAI policies)
  | housingAI => mkPolicies (p_aiEducation policies) (p_workplaceAI policies) (p_childcareAI policies) v
  end.

(** [Object.keys(policies)]: the keys in the order of the object literal. *)
Definition policy_keys : list PolicyId :=
  [aiEducation; workplaceAI; childcareAI; housingAI].

(** The slider domain: every intensity is an integer of [0,100]. *)
Definition in_range (policies : Policies) : Prop :=
  forall policy, (0 <= policies_get policies policy <= 100)%Z.

(** [baseFactors] and [factorReductions]: one score per factor. *)
Record Factors : Type := mkFactors {
  f_educationCost : R;
  f_workLifeBalance : R;
  f_childcareCost : R;
  f_housingCost : R
}.

(** [factors[factor]] *)
Definition factors_get (fs : Factors) (factor : Factor) : R :=
  match factor with
  | educationCost => f_educationCost fs
  | workLifeBalance => f_workLifeBalance fs
  | childcareCost => f_childcareCost fs
  | housingCost => f_housingCost fs
  end.

(** [factors[factor] *= m] *)
Definition factors_scale (fs : Factors) (factor : Factor) (m : R) : Factors :=
  match factor with
  | educationCost => mkFactors (f_educationCost fs * m) (f_workLifeBalance fs) (f_childcareCost fs) (f_housingCost fs)
  | workLifeBalance => mkFactors (f_educationCost fs) (f_workLifeBalance fs * m) (f_childcareCost fs) (f_housingCost fs)
  | childcareCost => mkFactors (f_educationCost fs) (f_workLifeBalance fs) (f_childcareCost fs * m) (f_housingCost fs)
  | housingCost => mkFactors (f_educationCost fs) (f_workLifeBalance fs) (f_childcareCost fs) (f_housingCost fs * m)
  end.

Record Demographics : Type := mkDemographics {
  population : R;
  gdpPerCapita : R;
  femaleParticipation : R
}.

(** An entry of [countryData]; the display [name] is left out. *)
Record Country : Type := mkCountry {
  baseTFR : R;
  baseFactors : Factors;
  demographics : Demographics
}.

(** An entry of [aiInterventions]; [name] and [description] are left out. *)
Record Intervention : Type := mkIntervention {
  maxImpact : R;
  costPerPoint : R;
  factors : list Factor
}.

(** One element of [projectionData]. *)
Record ProjectionPoint : Type := mkPoint {
  year : Z;
  baseline : R;
  projected : R;
  target : R
}.

(** [for (let year = 0; year <= last; year++)]: the values of [year]. *)
Definition years_upto (last : nat) : list Z := map Z.of_nat (seq 0 (S last)).

(** ** [src/pages/index.js]: the multi-country page *)

Module Multi.

Definition countryData (countryKey : CountryKey) : Country :=
  match countryKey with
  | south_korea =>
      {| baseTFR := 0.72;
         baseFactors := mkFactors 85 25 70 90;
         demographics := mkDemographics 51.8 35000 59.2 |}
  | japan =>
      {| baseTFR := 1.20;
         baseFactors := mkFactors 75 30 65 80;
         demographics := mkDemographics 124.8 40000 71.2 |}
  end.

(** [Object.keys(countryData)], used in compare mode. *)
Definition country_keys : list CountryKey := [south_korea; japan].

Definition aiInterventions (policy : PolicyId) : Intervention :=
  match policy with
  | aiEducation => mkIntervention 0.15 50000 [educationCost]
  | workplaceAI => mkIntervention 0.12 75000 [workLifeBalance]
  | childcareAI => mkIntervention 0.10 60000 [childcareCost]
  | housingAI => mkIntervention 0.08 100000 [housingCost]
  end.

(** The [let] variables that the [forEach] over the policies updates. *)
Record Acc : Type := mkAcc {
  acc_tfrImpact : R;
  acc_totalCost : R;
  acc_factorReductions : Factors;
  acc_policyImpacts : list (PolicyId * R);
  acc_policyCosts : list (PolicyId * R)
}.

(** The body of [intervention.factors.forEach]. *)
Definition factor_step (intensity : R) (factorReductions : Factors) (factor : Factor)
  : Factors :=
  let isPositiveFactor := Factor_eqb factor workLifeBalance in
  let multiplier :=
    if isPositiveFactor then 1 + intensity * 0.4 else 1 - intensity * 0.4 in
  factors_scale factorReductions factor multiplier.

(** The body of [Object.keys(policies).forEach]. *)
Definition policy_step (policies : Policies) (acc : Acc) (policy : PolicyId) : Acc :=
  let intervention := aiInterventions policy in
  let intensity := IZR (policies_get policies policy) / 100 in
  let policyImpact := maxImpact intervention * intensity in
  let policyCost := costPerPoint intervention * IZR (policies_get policies policy) in
  {| acc_tfrImpact := acc_tfrImpact acc + policyImpact;
     acc_totalCost := acc_totalCost acc + policyCost;
     acc_policyImpacts :=
       JS.set PolicyId_eqb (acc_policyImpacts acc) policy policyImpact;
     acc_policyCosts :=
       JS.set PolicyId_eqb (acc_policyCosts acc) policy (policyCost / 1000000);
     acc_factorReductions :=
       fold_left (factor_step intensity) (factors intervention)
         (acc_factorReductions acc) |}.

(** The state of the [let] variables after the loop over the policies. *)
Definition policy_loop (country : Country) (policies : Policies) : Acc :=
  fold_left (policy_step policies) policy_keys
    {| acc_tfrImpact := 0;
       acc_totalCost := 0;
       acc_factorReductions := baseFactors country;
       acc_policyImpacts := [];
       acc_policyCosts := [] |}.

(** The object that [simulateTFRImpactForCountry] returns. *)
Record Result : Type := mkResult {
  projectedTFR : R;
  tfrIncrease : R;
  totalCost : R;
  projectionData : list ProjectionPoint;
  factorReductions : Factors;
  economicBenefit : R;
  roi : JS.Number;
  populationIncrease : R;
  policyImpacts : list (PolicyId * R);
  policyCosts : list (PolicyId * R)
}.

(** The body of [simulateTFRImpactForCountry] once [country] is looked up. *)
Definition project (country : Country) (policies : Policies) : Result :=
  let acc := policy_loop country policies in
  let tfrImpact := acc_tfrImpact acc in
  let totalCost := acc_totalCost acc in
  let finalTFRIncrease := tfrImpact * (1 - exp (-2 * tfrImpact)) in
  let projectedTFR := Rmin 2.5 (baseTFR country + finalTFRIncrease) in
  let projectionData :=
    map (fun year =>
           let progress := Rmin 1 (IZR year / 10) in
           let currentTFR :=
             baseTFR country + (projectedTFR - baseTFR country) * progress in
           {| year := 2025 + year;
              baseline := baseTFR country;
              projected := JS.toFixed3 currentTFR;
              target := 2.1 |})
        (years_upto 20) in
  let averageTFRIncrease := (projectedTFR - baseTFR country) / 2 in
  let populationIncrease :=
    averageTFRIncrease * population (demographics country) * 1000 in
  let economicBenefit :=
    populationIncrease * gdpPerCapita (demographics country) * 0.8 in
  {| projectedTFR := projectedTFR;
     tfrIncrease := projectedTFR - baseTFR country;
     totalCost := totalCost / 1000000;
     projectionData := projectionData;
     factorReductions := acc_factorReductions acc;
     economicBenefit := economicBenefit / 1000000000;
     roi := JS.div economicBenefit totalCost;
     populationIncrease := populationIncrease;
     policyImpacts := acc_policyImpacts acc;
     policyCosts := acc_policyCosts acc |}.

Definition simulateTFRImpactForCountry (policies : Policies) (countryKey : CountryKey)
  : Result :=
  let country := countryData countryKey in
  project country policies.

(** [runSimulation] after its delay: the new [results], one entry per
    simulated country. *)
Definition runSimulation (compareMode : bool) (selectedCountry : CountryKey)
    (policies : Policies) : list (CountryKey * Result) :=
  let countriesToSimulate := if compareMode then country_keys else [selectedCountry] in
  map (fun key => (key, simulateTFRImpactForCountry policies key)) countriesToSimulate.

(** The initial [policies] state, which [resetSimulation] restores. *)
Definition initialPolicies : Policies := mkPolicies 0 0 0 0.

(** The three preset buttons. *)
Definition presetLow : Policies := mkPolicies 20 20 20 20.
Definition presetBalanced : Policies := mkPolicies 50 50 50 50.
Definition presetAggressive : Policies := mkPolicies 100 100 100 100.

End Multi.

(** ** [src/pages/index1.js]: the single-country page *)

Module Single.

Definition countryData (countryKey : CountryKey) : Country :=
  match countryKey with
  | south_korea =>
      {| baseTFR := 0.72;
         baseFactors := mkFactors 85 25 70 90;
         demographics := mkDemographics 51.8 35000 59.2 |}
  | japan =>
      {| baseTFR := 1.26;
         baseFactors := mkFactors 75 30 65 80;
         demographics := mkDemographics 124.8 40000 71.2 |}
  end.

Definition aiInterventions (policy : PolicyId) : Intervention :=
  match policy with
  | aiEducation => mkIntervention 0.15 50000 [educationCost]
  | workplaceAI => mkIntervention 0.12 75000 [workLifeBalance]
  | childcareAI => mkIntervention 0.10 60000 [childcareCost]
  | housingAI => mkIntervention 0.08 100000 [housingCost]
  end.

(** The [let] variables that the [forEach] over the policies updates. *)
Record Acc : Type := mkAcc {
  acc_tfrImpact : R;
  acc_totalCost : R;
  acc_factorReductions : Factors
}.

(** The body of [intervention.factors.forEach]: every factor shrinks. *)
Definition factor_step (intensity : R) (factorReductions : Factors) (factor : Factor)
  : Factors :=
  factors_scale factorReductions factor (1 - intensity * 0.4).

(** The body of [Object.keys(policies).forEach]. *)
Definition policy_step (policies : Policies) (acc : Acc) (policy : PolicyId) : Acc :=
  let intervention := aiInterventions policy in
  let intensity := IZR (policies_get policies policy) / 100 in
  let policyImpact := maxImpact intervention * intensity in
  {| acc_tfrImpact := acc_tfrImpact acc + policyImpact;
     acc_totalCost :=
       acc_totalCost acc
       + costPerPoint intervention * IZR (policies_get policies policy);
     acc_factorReductions :=
       fold_left (factor_step intensity) (factors intervention)
         (acc_factorReductions acc) |}.

Definition policy_loop (country : Country) (policies : Policies) : Acc :=
  fold_left (policy_step policies) policy_keys
    {| acc_tfrImpact := 0;
       acc_totalCost := 0;
       acc_factorReductions := baseFactors country |}.

(** The object passed to [setResults]. *)
Record Result : Type := mkResult {
  projectedTFR : R;
  tfrIncrease : R;
  totalCost : R;
  projectionData : list ProjectionPoint;
  factorReductions : Factors;
  economicBenefit : R;
  roi : JS.Number;
  populationIncrease : R
}.

(** [simulateTFRImpact] after its delay: the value given to [setResults],
    from the [selectedCountry] and [policies] states. *)
Definition simulateTFRImpact (selectedCountry : CountryKey) (policies : Policies)
  : Result :=
  let country := countryData selectedCountry in
  let acc := policy_loop country policies in
  let tfrImpact := acc_tfrImpact acc in
  let totalCost := acc_totalCost acc in
  let finalTFRIncrease := tfrImpact * (1 - exp (-2 * tfrImpact)) in
  let projectedTFR := Rmin 2.5 (baseTFR country + finalTFRIncrease) in
  let projectionData :=
    map (fun year =>
           let progress := Rmin 1 (IZR year / 7) in
           let currentTFR :=
             baseTFR country + (projectedTFR - baseTFR country) * progress in
           {| year := 2025 + year;
              baseline := baseTFR country;
              projected := JS.toFixed3 currentTFR;
              target := 2.1 |})
        (years_upto 10) in
  let populationIncrease :=
    (projectedTFR - baseTFR country) * population (demographics country) * 10000 in
  let economicBenefit :=
    populationIncrease * gdpPerCapita (demographics country) * 0.7 in
  {| projectedTFR := projectedTFR;
     tfrIncrease := projectedTFR - baseTFR country;
     totalCost := totalCost / 1000000;
     projectionData := projectionData;
     factorReductions := acc_factorReductions acc;
     economicBenefit := economicBenefit / 1000000000;
     roi := JS.div economicBenefit totalCost;
     populationIncrease := populationIncrease |}.

End Single.

(** ** [src/pages/index.js]: what [ResultsDisplay] derives from a result *)

Module MultiView.

(** [aiInterventions[policy].name] *)
Definition interventionName (policy : PolicyId) : string :=
  match policy with
  | aiEducation => "AI-Powered Education"
  | workplaceAI => "Workplace AI Systems"
  | childcareAI => "AI Childcare Support"
  | housingAI => "AI Housing Solutions"
  end.

(** [Object.keys(o)] of an object with keys in insertion order. *)
Definition keys {K V : Type} (o : list (K * V)) : list K := map fst o.

(** [v > 0], where [v] may be [undefined]: the comparison is then false. *)
Definition positive (v : option R) : bool :=
  match v with
  | Some x => if Rlt_dec 0 x then true else false
  | None => false
  end.

(** An element of [policyImpactData]. *)
Record PieItem : Type := mkPieItem {
  name : string;
  value : option R
}.

(** [Object.keys(res.policyImpacts).map(...).filter(item => item.value > 0)] *)
Definition policyImpactData (res : Multi.Result) : list PieItem :=
  filter (fun item => positive (value item))
    (map (fun policy =>
            {| name := interventionName policy;
               value := JS.get PolicyId_eqb (Multi.policyImpacts res) policy |})
       (keys (Multi.policyImpacts res))).

(** [policyImpactData.length > 0], the guard of the pie chart. *)
Definition pieShown (res : Multi.Result) : bool :=
  Nat.ltb 0 (List.length (policyImpactData res)).

(** The text of the "Time to Target" card:
    [res.projectedTFR >= 2.1 ? '10' : '20+']. *)
Definition timeToTarget (res : Multi.Result) : string :=
  if Rle_dec 2.1 (Multi.projectedTFR res) then "10" else "20+".

(** An element of the [data] of the barrier bar chart. *)
Record BarItem : Type := mkBarItem {
  label : string;
  before : R;
  after : R
}.

(** The [data] array of the "Barrier Reduction Impact" chart. *)
Definition barrierData (country : Country) (res : Multi.Result) : list BarItem :=
  [ {| label := "Education Cost";
       before := f_educationCost (baseFactors country);
       after := f_educationCost (Multi.factorReductions res) |};
    {| label := "Work-Life Balance";
       before := 100 - f_workLifeBalance (baseFactors country);
       after := 100 - f_workLifeBalance (Multi.factorReductions res) |};
    {| label := "Childcare Cost";
       before := f_childcareCost (baseFactors country);
       after := f_childcareCost (Multi.factorReductions res) |};
    {| label := "Housing Cost";
       before := f_housingCost (baseFactors country);
       after := f_housingCost (Multi.factorReductions res) |} ].

(** What the results panel renders, by [Object.keys(results).length]. *)
Inductive Panel : Type :=
| Placeholder
| OneCountry (key : CountryKey) (res : Multi.Result)
| Grid (entries : list (CountryKey * Multi.Result)).

Definition resultsPanel (results : list (CountryKey * Multi.Result)) : Panel :=
  match results with
  | [] => Placeholder
  | [(key, res)] => OneCountry key res
  | _ => Grid results
  end.

End MultiView.

(** ** [src/pages/index.js]: the component state and its event handlers *)

Module MultiPage.

(** The [useState] cells, and the [setTimeout] callbacks not yet run: each
    holds the [compareMode], [selectedCountry] and [policies] of the render
    in which [runSimulation] was called. *)
Record State : Type := mkState {
  selectedCountry : CountryKey;
  compareMode : bool;
  policies : Policies;
  results : list (CountryKey * Multi.Result);
  isSimulating : bool;
  timers : list (bool * CountryKey * Policies)
}.

Definition initialState : State :=
  {| selectedCountry := south_korea;
     compareMode := false;
     policies := mkPolicies 0 0 0 0;
     results := [];
     isSimulating := false;
     timers := [] |}.

(** What the user and the timer can do to the page. *)
Inductive Event : Type :=
| SelectCountry (countryKey : CountryKey)
| SetCompareMode (checked : bool)
| SliderChange (policy : PolicyId) (v : Z)
| PresetLow
| PresetBalanced
| PresetAggressive
| ClickRun
| TimerFires
| ClickReset.

(** [runSimulation] up to the [setTimeout] call. *)
Definition runSimulation (s : State) : State :=
  {| selectedCountry := selectedCountry s;
     compareMode := compareMode s;
     policies := policies s;
     results := results s;
     isSimulating := true;
     timers := timers s ++ [(compareMode s, selectedCountry s, policies s)] |}.

(** The callback given to [setTimeout], run for the oldest pending timer. *)
Definition timerCallback (s : State) : State :=
  match timers s with
  | [] => s
  | (cm, sc, p) :: rest =>
      {| selectedCountry := selectedCountry s;
         compareMode := compareMode s;
         policies := policies s;
         results := Multi.runSimulation cm sc p;
         isSimulating := false;
         timers := rest |}
  end.

Definition resetSimulation (s : State) : State :=
  {| selectedCountry := selectedCountry s;
     compareMode := compareMode s;
     policies := mkPolicies 0 0 0 0;
     results := [];
     isSimulating := isSimulating s;
     timers := timers s |}.

Definition setPolicies (s : State) (p : Policies) : State :=
  {| selectedCountry := selectedCountry s;
     compareMode := compareMode s;
     policies := p;
     results := results s;
     isSimulating := isSimulating s;
     timers := timers s |}.

(** One event: the country [select] is disabled in compare mode and the
    run button while [isSimulating]. *)
Definition handle (s : State) (e : Event) : State :=
  match e with
  | SelectCountry countryKey =>
      if compareMode s then s
      else {| selectedCountry := countryKey;
              compareMode := compareMode s;
              policies := policies s;
              results := results s;
              isSimulating := isSimulating s;
              timers := timers s |}
  | SetCompareMode checked =>
      {| selectedCountry := selectedCountry s;
         compareMode := checked;
         policies := policies s;
         results := results s;
         isSimulating := isSimulating s;
         timers := timers s |}
  | SliderChange policy v => setPolicies s (policies_set (policies s) policy v)
  | PresetLow => setPolicies s (mkPolicies 20 20 20 20)
  | PresetBalanced => setPolicies s (mkPolicies 50 50 50 50)
  | PresetAggressive => setPolicies s (mkPolicies 100 100 100 100)
  | ClickRun => if isSimulating s then s else runSimulation s
  | TimerFires => timerCallback s
  | ClickReset => resetSimulation s
  end.

(** The page after a sequence of events. *)
Definition run (events : list Event) (s : State) : State := fold_left handle events s.

(** A value the range input can hand to [onChange]: [min] 0, [max] 100,
    [step] 5. *)
Definition slider_value (v : Z) : Prop := (0 <= v <= 100)%Z /\ (v mod 5 = 0)%Z.

Definition valid_event (e : Event) : Prop :=
  match e with
  | SliderChange _ v => slider_value v
  | _ => True
  end.

End MultiPage.

(** ** [src/pages/index1.js]: the values the results panel derives *)

Module SingleView.

(** The text of the "Time to Target" card:
    [results.projectedTFR >= 2.1 ? '7' : '10+']. *)
Definition timeToTarget (results : Single.Result) : string :=
  if Rle_dec 2.1 (Single.projectedTFR results) then "7" else "10+".

(** The [data] array of the "Barrier Reduction Impact" chart; [country] is
    the profile of the country selected when the page renders. *)
Definition barrierData (country : Country) (results : Single.Result)
  : list MultiView.BarItem :=
  [ MultiView.mkBarItem "Education Cost"
      (f_educationCost (baseFactors country))
      (f_educationCost (Single.factorReductions results));
    MultiView.mkBarItem "Work-Life Balance"
      (100 - f_workLifeBalance (baseFactors country))
      (100 - f_workLifeBalance (Single.factorReductions results));
    MultiView.mkBarItem "Childcare Cost"
      (f_childcareCost (baseFactors country))
      (f_childcareCost (Single.factorReductions results));
    MultiView.mkBarItem "Housing Cost"
      (f_housingCost (baseFactors country))
      (f_housingCost (Single.factorReductions results)) ].

End SingleView.

(** ** Properties of the number model *)

Lemma toFixed3_nearest (x : R) (n : Z) :
  0 <= x -> IZR n - / 2 <= x * 1000 < IZR n + / 2 -> JS.toFixed3 x = IZR n / 1000.
Proof.
  intros Hx [Hlo Hhi]. unfold JS.toFixed3.
  destruct (Rlt_dec x 0) as [Hneg | _]; [lra |].
  assert (Zfloor (x * 1000 + / 2) = n) as ->; [| reflexivity].
  apply Zfloor_eq. lra.
Qed.

Lemma toFixed3_milli (n : Z) : (0 <= n)%Z -> JS.toFixed3 (IZR n / 1000) = IZR n / 1000.
Proof.
  intros Hn. apply toFixed3_nearest.
  - apply IZR_le in Hn. lra.
  - lra.
Qed.

Lemma div_zero_zero : JS.div 0 0 = JS.NaN.
Proof.
  unfold JS.div. destruct (Req_dec_T 0 0) as [_ | Hne]; [| lra].
  reflexivity.
Qed.

(** ** Vocabulary of the statements *)

(** The diminishing-returns curve applied to the summed raw impact. *)
Definition saturate (x : R) : R := x * (1 - exp (-2 * x)).

(** Sum of [f] over a list of keys. *)
Definition Rsum {A : Type} (f : A -> R) (keys : list A) : R :=
  fold_right (fun a s => f a + s) 0 keys.

(** The slider value of a policy as a fraction of 1. *)
Definition intensityFraction (policies : Policies) (policy : PolicyId) : R :=
  IZR (policies_get policies policy) / 100.

(** [policyImpact] and [policyCost] of one policy in [index.js]. *)
Definition rawImpact (policies : Policies) (policy : PolicyId) : R :=
  maxImpact (Multi.aiInterventions policy) * intensityFraction policies policy.

Definition rawCost (policies : Policies) (policy : PolicyId) : R :=
  costPerPoint (Multi.aiInterventions policy) * IZR (policies_get policies policy).

(** A policy declares a factor when the factor is in its [factors] array. *)
Definition declares (policy : PolicyId) (factor : Factor) : Prop :=
  In factor (factors (Multi.aiInterventions policy)).

(** The element of [projectionData] at a year offset. *)
Definition record_at (data : list ProjectionPoint) (offset : nat) : option ProjectionPoint :=
  nth_error data offset.

(** ** The loop over the policies *)

Section PolicyLoop.
Variable policies : Policies.

Lemma fold_tfrImpact (keys : list PolicyId) (acc : Multi.Acc) :
  Multi.acc_tfrImpact (fold_left (Multi.policy_step policies) keys acc)
  = Multi.acc_tfrImpact acc + Rsum (rawImpact policies) keys.
Proof.
  revert acc. induction keys as [| k keys IH]; intros acc; simpl.
  - lra.
  - rewrite IH. unfold rawImpact, intensityFraction. simpl. lra.
Qed.

Lemma fold_totalCost (keys : list PolicyId) (acc : Multi.Acc) :
  Multi.acc_totalCost (fold_left (Multi.policy_step policies) keys acc)
  = Multi.acc_totalCost acc + Rsum (rawCost policies) keys.
Proof.
  revert acc. induction keys as [| k keys IH]; intros acc; simpl.
  - lra.
  - rewrite IH. unfold rawCost. simpl. lra.
Qed.

Lemma loop_tfrImpact (country : Country) :
  Multi.acc_tfrImpact (Multi.policy_loop country policies)
  = Rsum (rawImpact policies) policy_keys.
Proof. unfold Multi.policy_loop. rewrite fold_tfrImpact. simpl. lra. Qed.

Lemma loop_totalCost (country : Country) :
  Multi.acc_totalCost (Multi.policy_loop country policies)
  = Rsum (rawCost policies) policy_keys.
Proof. unfold Multi.policy_loop. rewrite fold_totalCost. simpl. lra. Qed.

Lemma projectedTFR_eq (country : Country) :
  Multi.projectedTFR (Multi.project country policies)
  = Rmin 2.5 (baseTFR country + saturate (Rsum (rawImpact policies) policy_keys)).
Proof.
  unfold Multi.project. cbn [Multi.projectedTFR].
  rewrite loop_tfrImpact. reflexivity.
Qed.
End PolicyLoop.

Lemma rawImpact_nonneg (policies : Policies) (policy : PolicyId) :
  in_range policies -> 0 <= rawImpact policies policy.
Proof.
  intros Hr. destruct (Hr policy) as [H0 _]. apply IZR_le in H0.
  unfold rawImpact, intensityFraction.
  destruct policy; cbn [Multi.aiInterventions maxImpact]; lra.
Qed.

Lemma rawImpact_le_max (policies : Policies) (policy : PolicyId) :
  in_range policies -> rawImpact policies policy <= maxImpact (Multi.aiInterventions policy).
Proof.
  intros Hr. destruct (Hr policy) as [_ H1]. apply IZR_le in H1.
  unfold rawImpact, intensityFraction.
  destruct policy; cbn [Multi.aiInterventions maxImpact]; lra.
Qed.

Lemma totalRawImpact_bounds (policies : Policies) :
  in_range policies -> 0 <= Rsum (rawImpact policies) policy_keys <= 0.45.
Proof.
  intros Hr.
  pose proof (rawImpact_nonneg policies aiEducation Hr).
  pose proof (rawImpact_nonneg policies workplaceAI Hr).
  pose proof (rawImpact_nonneg policies childcareAI Hr).
  pose proof (rawImpact_nonneg policies housingAI Hr).
  pose proof (rawImpact_le_max policies aiEducation Hr).
  pose proof (rawImpact_le_max policies workplaceAI Hr).
  pose proof (rawImpact_le_max policies childcareAI Hr).
  pose proof (rawImpact_le_max policies housingAI Hr).
  cbn [Multi.aiInterventions maxImpact] in *.
  unfold Rsum, policy_keys. cbn [fold_right]. lra.
Qed.

Lemma policies_get_set (policies : Policies) (policy q : PolicyId) (v : Z) :
  policies_get (policies_set policies policy v) q
  = if PolicyId_eqb q policy then v else policies_get policies q.
Proof. destruct policy, q; reflexivity. Qed.

Lemma rawImpact_set_mono (policies : Policies) (policy q : PolicyId) (v : Z) :
  (policies_get policies policy <= v)%Z ->
  rawImpact policies q <= rawImpact (policies_set policies policy v) q.
Proof.
  intros Hv. apply IZR_le in Hv.
  unfold rawImpact, intensityFraction. rewrite policies_get_set.
  destruct policy, q; cbn [PolicyId_eqb Multi.aiInterventions maxImpact] in *; lra.
Qed.

(** ** The saturating transform *)

Lemma exp_neg_le_1 (x : R) : 0 <= x -> exp (- x) <= 1.
Proof.
  intros Hx. rewrite <- exp_0.
  destruct (Req_dec x 0) as [-> | Hne].
  - rewrite Ropp_0. lra.
  - left. apply exp_increasing. lra.
Qed.

Lemma saturate_0 : saturate 0 = 0.
Proof. unfold saturate. lra. Qed.

Lemma saturate_mono (x y : R) : 0 <= x -> x <= y -> saturate x <= saturate y.
Proof.
  intros Hx Hxy. unfold saturate.
  assert (Hex : exp (-2 * y) <= exp (-2 * x)).
  { destruct (Req_dec x y) as [-> | Hne]; [lra |].
    left. apply exp_increasing. lra. }
  pose proof (exp_neg_le_1 (2 * x) ltac:(lra)) as Hx1.
  replace (- (2 * x)) with (-2 * x) in Hx1 by lra.
  nra.
Qed.

Lemma saturate_bounds (x : R) : 0 <= x -> 0 <= saturate x <= x.
Proof.
  intros Hx. unfold saturate.
  pose proof (exp_neg_le_1 (2 * x) ltac:(lra)) as Hx1.
  pose proof (exp_pos (- (2 * x))) as Hpos.
  replace (- (2 * x)) with (-2 * x) in * by lra.
  split; nra.
Qed.

(** ** Monotonicity and the ceiling, for any profile *)

Lemma projectedTFR_monotone_any_profile
    (country : Country) (policies : Policies) (policy : PolicyId) (v : Z) :
  in_range policies -> (policies_get policies policy <= v)%Z ->
  Multi.projectedTFR (Multi.project country policies)
  <= Multi.projectedTFR (Multi.project country (policies_set policies policy v)).
Proof.
  intros Hr Hv. rewrite !projectedTFR_eq.
  apply Rle_min_compat_l, Rplus_le_compat_l, saturate_mono.
  - apply totalRawImpact_bounds, Hr.
  - pose proof (fun q => rawImpact_set_mono policies policy q v Hv) as Hq.
    pose proof (Hq aiEducation). pose proof (Hq workplaceAI).
    pose proof (Hq childcareAI). pose proof (Hq housingAI).
    unfold Rsum, policy_keys. cbn [fold_right]. lra.
Qed.

Lemma projectedTFR_ceiling_any_profile (country : Country) (policies : Policies) :
  Multi.projectedTFR (Multi.project country policies) <= 2.5.
Proof. rewrite projectedTFR_eq. apply Rmin_l. Qed.

(** C1. For each of the two country profiles and every intensity vector
    with all four intensities in [0,100], raising the intensity of one
    policy (to a value that is still at most 100) while the other three
    keep their values does not lower [projectedTFR]. *)
Theorem projectedTFR_monotone
    (countryKey : CountryKey) (policies : Policies) (policy : PolicyId) (v : Z) :
  in_range policies -> (policies_get policies policy <= v <= 100)%Z ->
  Multi.projectedTFR (Multi.simulateTFRImpactForCountry policies countryKey)
  <= Multi.projectedTFR
       (Multi.simulateTFRImpactForCountry (policies_set policies policy v) countryKey).
Proof.
  intros Hr [Hv _]. unfold Multi.simulateTFRImpactForCountry.
  now apply projectedTFR_monotone_any_profile.
Qed.

Lemma projectedTFR_monotone_witness :
  Multi.projectedTFR (Multi.simulateTFRImpactForCountry (mkPolicies 20 50 0 100) japan)
  <= Multi.projectedTFR
       (Multi.simulateTFRImpactForCountry
          (policies_set (mkPolicies 20 50 0 100) childcareAI 35) japan).
Proof.
  apply (projectedTFR_monotone japan (mkPolicies 20 50 0 100) childcareAI 35).
  - intros []; simpl; lia.
  - simpl; lia.
Defined.

(** C2. For each country profile and every intensity vector,
    [projectedTFR] is the minimum of 2.5 and the baseline plus the
    saturated sum of the raw impacts, hence at most 2.5. *)
Theorem projectedTFR_ceiling (countryKey : CountryKey) (policies : Policies) :
  let country := Multi.countryData countryKey in
  let tfrImpact := Multi.acc_tfrImpact (Multi.policy_loop country policies) in
  let finalTFRIncrease := tfrImpact * (1 - exp (-2 * tfrImpact)) in
  let r := Multi.simulateTFRImpactForCountry policies countryKey in
  Multi.projectedTFR r = Rmin 2.5 (baseTFR country + finalTFRIncrease)
  /\ Multi.projectedTFR r <= 2.5.
Proof.
  cbv zeta. split.
  - reflexivity.
  - apply projectedTFR_ceiling_any_profile.
Qed.

(** ** Costs and raw impacts *)

(** C4. For each policy, the loop adds [costPerPoint] times the raw 0-100
    slider value to the total cost and [maxImpact] times the slider value
    over 100 to the summed impact; the result stores these two values per
    policy (the cost in millions), and its [totalCost] is the sum of the
    four raw costs, in millions, which is the sum of the four stored
    per-policy costs. *)
Theorem cost_scales_with_raw_intensity
    (countryKey : CountryKey) (policies : Policies) (policy : PolicyId) :
  let intervention := Multi.aiInterventions policy in
  let country := Multi.countryData countryKey in
  let r := Multi.simulateTFRImpactForCountry policies countryKey in
  let raw := IZR (policies_get policies policy) in
  (forall acc,
      Multi.acc_totalCost (Multi.policy_step policies acc policy)
      = Multi.acc_totalCost acc + costPerPoint intervention * raw
      /\ Multi.acc_tfrImpact (Multi.policy_step policies acc policy)
         = Multi.acc_tfrImpact acc + maxImpact intervention * (raw / 100))
  /\ JS.get PolicyId_eqb (Multi.policyCosts r) policy
     = Some (costPerPoint intervention * raw / 1000000)
  /\ JS.get PolicyId_eqb (Multi.policyImpacts r) policy
     = Some (maxImpact intervention * (raw / 100))
  /\ Multi.acc_totalCost (Multi.policy_loop country policies)
     = Rsum (fun p => costPerPoint (Multi.aiInterventions p) * IZR (policies_get policies p))
         policy_keys
  /\ Multi.totalCost r
     = Rsum (fun p => costPerPoint (Multi.aiInterventions p) * IZR (policies_get policies p))
         policy_keys / 1000000
  /\ Multi.totalCost r
     = Rsum (fun p => match JS.get PolicyId_eqb (Multi.policyCosts r) p with
                      | Some cost => cost
                      | None => 0
                      end)
         policy_keys.
Proof.
  cbv zeta.
  assert (Htotal : Multi.totalCost (Multi.simulateTFRImpactForCountry policies countryKey)
                   = Rsum (rawCost policies) policy_keys / 1000000).
  { unfold Multi.simulateTFRImpactForCountry, Multi.project.
    cbn [Multi.totalCost]. rewrite loop_totalCost. reflexivity. }
  split; [| split; [| split; [| split; [| split]]]].
  - intros acc. split; reflexivity.
  - destruct policy; reflexivity.
  - destruct policy; reflexivity.
  - apply loop_totalCost.
  - exact Htotal.
  - rewrite Htotal.
    unfold Multi.simulateTFRImpactForCountry, Multi.project, Multi.policy_loop,
      policy_keys, Multi.policy_step, Rsum, rawCost.
    cbn [Multi.policyCosts Multi.acc_policyCosts fold_left fold_right
         JS.set JS.get PolicyId_eqb].
    lra.
Qed.

(** ** Factor scores *)

Lemma declares_inv (policy : PolicyId) (factor : Factor) :
  declares policy factor ->
  match factor with
  | educationCost => policy = aiEducation
  | workLifeBalance => policy = workplaceAI
  | childcareCost => policy = childcareAI
  | housingCost => policy = housingAI
  end.
Proof.
  unfold declares.
  destruct policy; cbn [Multi.aiInterventions factors In];
    intros [<- | []]; reflexivity.
Qed.

Lemma factorReductions_any_profile
    (country : Country) (policies : Policies) (policy : PolicyId) (factor : Factor) :
  declares policy factor ->
  factors_get (Multi.factorReductions (Multi.project country policies)) factor
  = factors_get (baseFactors country) factor
    * (if Factor_eqb factor workLifeBalance
       then 1 + intensityFraction policies policy * 0.4
       else 1 - intensityFraction policies policy * 0.4).
Proof.
  intros Hd. apply declares_inv in Hd.
  destruct factor; subst policy; reflexivity.
Qed.

(** C5. In the result for a country profile, the score of each factor is
    the baseline score times the multiplier of the one policy that declares
    the factor: [1 + fraction * 0.4] for work-life balance and
    [1 - fraction * 0.4] for the three cost factors; no other policy
    declares the factor, and with that policy at intensity 0 the score is
    the baseline score. *)
Theorem factor_adjusted_by_declaring_policy
    (countryKey : CountryKey) (policies : Policies) (policy : PolicyId) (factor : Factor) :
  declares policy factor ->
  let r := Multi.simulateTFRImpactForCountry policies countryKey in
  let base := factors_get (baseFactors (Multi.countryData countryKey)) factor in
  let fraction := IZR (policies_get policies policy) / 100 in
  (forall other, declares other factor -> other = policy)
  /\ factors_get (Multi.factorReductions r) factor
     = base * (match factor with
               | workLifeBalance => 1 + fraction * 0.4
               | _ => 1 - fraction * 0.4
               end)
  /\ (policies_get policies policy = 0%Z ->
      factors_get (Multi.factorReductions r) factor = base).
Proof.
  intros Hd. cbv zeta.
  assert (Heq : factors_get
                  (Multi.factorReductions
                     (Multi.simulateTFRImpactForCountry policies countryKey)) factor
                = factors_get (baseFactors (Multi.countryData countryKey)) factor
                  * (match factor with
                     | workLifeBalance => 1 + IZR (policies_get policies policy) / 100 * 0.4
                     | _ => 1 - IZR (policies_get policies policy) / 100 * 0.4
                     end)).
  { unfold Multi.simulateTFRImpactForCountry.
    rewrite (factorReductions_any_profile _ _ policy factor Hd).
    destruct factor; reflexivity. }
  split; [| split].
  - intros other Ho. apply declares_inv in Ho, Hd.
    destruct factor; congruence.
  - exact Heq.
  - intros H0. rewrite Heq, H0. destruct factor; lra.
Qed.

Lemma factor_adjusted_by_declaring_policy_witness :
  factors_get
    (Multi.factorReductions
       (Multi.simulateTFRImpactForCountry (mkPolicies 0 50 0 0) south_korea))
    workLifeBalance
  = 25 * (1 + 50 / 100 * 0.4).
Proof.
  apply (factor_adjusted_by_declaring_policy
           south_korea (mkPolicies 0 50 0 0) workplaceAI workLifeBalance).
  simpl. left. reflexivity.
Defined.

(** ** No active policy *)

Lemma Rsum_rawImpact_zero : Rsum (rawImpact Multi.initialPolicies) policy_keys = 0.
Proof.
  unfold Rsum, policy_keys, rawImpact, intensityFraction.
  cbn [fold_right policies_get Multi.initialPolicies p_aiEducation p_workplaceAI
       p_childcareAI p_housingAI].
  lra.
Qed.

Lemma Rsum_rawCost_zero : Rsum (rawCost Multi.initialPolicies) policy_keys = 0.
Proof.
  unfold Rsum, policy_keys, rawCost.
  cbn [fold_right policies_get Multi.initialPolicies p_aiEducation p_workplaceAI
       p_childcareAI p_housingAI].
  lra.
Qed.

Lemma baseTFR_below_ceiling (countryKey : CountryKey) :
  0 <= baseTFR (Multi.countryData countryKey) <= 2.5.
Proof. destruct countryKey; cbn [Multi.countryData baseTFR]; lra. Qed.

Lemma projectedTFR_zero_any_profile (country : Country) :
  baseTFR country <= 2.5 ->
  Multi.projectedTFR (Multi.project country Multi.initialPolicies) = baseTFR country.
Proof.
  intros Hb. rewrite projectedTFR_eq, Rsum_rawImpact_zero, saturate_0, Rplus_0_r.
  apply Rmin_right. exact Hb.
Qed.

Lemma totalCost_zero_any_profile (country : Country) :
  Multi.totalCost (Multi.project country Multi.initialPolicies) = 0.
Proof.
  unfold Multi.project. cbn [Multi.totalCost].
  rewrite loop_totalCost, Rsum_rawCost_zero. lra.
Qed.

Lemma zero_baseline_any_key (countryKey : CountryKey) :
  Multi.projectedTFR (Multi.simulateTFRImpactForCountry (mkPolicies 0 0 0 0) countryKey)
  = baseTFR (Multi.countryData countryKey).
Proof.
  unfold Multi.simulateTFRImpactForCountry.
  apply projectedTFR_zero_any_profile, baseTFR_below_ceiling.
Qed.

(** C6. For each country profile, with the four intensities at zero the
    engine returns [projectedTFR] equal to the profile's [baseTFR] and
    [totalCost] equal to 0. *)
Theorem zero_intensities_keep_baseline (countryKey : CountryKey) :
  let r := Multi.simulateTFRImpactForCountry (mkPolicies 0 0 0 0) countryKey in
  Multi.projectedTFR r = baseTFR (Multi.countryData countryKey)
  /\ Multi.totalCost r = 0.
Proof.
  cbv zeta. split.
  - apply zero_baseline_any_key.
  - unfold Multi.simulateTFRImpactForCountry. apply totalCost_zero_any_profile.
Qed.

Lemma rawCost_nonneg (policies : Policies) (policy : PolicyId) :
  in_range policies -> 0 <= rawCost policies policy.
Proof.
  intros Hr. destruct (Hr policy) as [H0 _]. apply IZR_le in H0.
  unfold rawCost. destruct policy; cbn [Multi.aiInterventions costPerPoint]; lra.
Qed.

Lemma zero_cost_zero_policies (policies : Policies) :
  in_range policies -> Rsum (rawCost policies) policy_keys = 0 ->
  policies = Multi.initialPolicies.
Proof.
  intros Hr Hsum.
  pose proof (rawCost_nonneg policies aiEducation Hr) as H1.
  pose proof (rawCost_nonneg policies workplaceAI Hr) as H2.
  pose proof (rawCost_nonneg policies childcareAI Hr) as H3.
  pose proof (rawCost_nonneg policies housingAI Hr) as H4.
  unfold Rsum, policy_keys in Hsum. cbn [fold_right] in Hsum.
  unfold rawCost in *.
  cbn [Multi.aiInterventions costPerPoint policies_get] in *.
  destruct policies as [a b c d]. cbn [p_aiEducation p_workplaceAI p_childcareAI p_housingAI] in *.
  assert (Ha : IZR a = 0) by lra. assert (Hb : IZR b = 0) by lra.
  assert (Hc : IZR c = 0) by lra. assert (Hd : IZR d = 0) by lra.
  apply eq_IZR in Ha, Hb, Hc, Hd. subst. reflexivity.
Qed.

Lemma roi_zero_any_profile (country : Country) :
  baseTFR country <= 2.5 ->
  Multi.roi (Multi.project country Multi.initialPolicies) = JS.NaN.
Proof.
  intros Hb.
  pose proof (projectedTFR_zero_any_profile country Hb) as Hp.
  unfold Multi.project in *. cbn [Multi.roi Multi.projectedTFR] in *.
  rewrite Hp, loop_totalCost, Rsum_rawCost_zero.
  replace ((baseTFR country - baseTFR country) / 2 * population (demographics country)
           * 1000 * gdpPerCapita (demographics country) * 0.8) with 0 by lra.
  apply div_zero_zero.
Qed.

(** C7. For each country profile and every intensity vector of the slider
    domain, when the total cost is zero the [roi] of the result is [NaN]
    (the quotient 0/0), not an infinity. *)
Theorem roi_is_NaN_when_cost_is_zero (countryKey : CountryKey) (policies : Policies) :
  in_range policies ->
  Multi.totalCost (Multi.simulateTFRImpactForCountry policies countryKey) = 0 ->
  Multi.roi (Multi.simulateTFRImpactForCountry policies countryKey) = JS.NaN.
Proof.
  intros Hr Hcost. unfold Multi.simulateTFRImpactForCountry in *.
  assert (Hz : policies = Multi.initialPolicies).
  { apply zero_cost_zero_policies; [exact Hr |].
    unfold Multi.project in Hcost. cbn [Multi.totalCost] in Hcost.
    rewrite loop_totalCost in Hcost. lra. }
  subst policies. apply roi_zero_any_profile, baseTFR_below_ceiling.
Qed.

Lemma roi_is_NaN_when_cost_is_zero_witness :
  Multi.roi (Multi.simulateTFRImpactForCountry (mkPolicies 0 0 0 0) south_korea) = JS.NaN.
Proof.
  apply (roi_is_NaN_when_cost_is_zero south_korea (mkPolicies 0 0 0 0)).
  - intros []; simpl; lia.
  - unfold Multi.simulateTFRImpactForCountry, Multi.project, Multi.policy_loop,
      policy_keys, Multi.policy_step.
    cbn [Multi.totalCost fold_left Multi.acc_totalCost Multi.aiInterventions
         costPerPoint policies_get p_aiEducation p_workplaceAI p_childcareAI
         p_housingAI].
    lra.
Defined.

(** ** The trajectory *)

Lemma years_upto_nth (last offset : nat) :
  (offset <= last)%nat -> nth_error (years_upto last) offset = Some (Z.of_nat offset).
Proof.
  intros Hle. unfold years_upto.
  rewrite nth_error_map, nth_error_seq.
  destruct (Nat.ltb_spec offset (S last)) as [_ | Hge]; [reflexivity | lia].
Qed.

Lemma record_at_projectionData (country : Country) (policies : Policies) (offset : nat) :
  (offset <= 20)%nat ->
  record_at (Multi.projectionData (Multi.project country policies)) offset
  = let projectedTFR := Multi.projectedTFR (Multi.project country policies) in
    let progress := Rmin 1 (IZR (Z.of_nat offset) / 10) in
    Some {| year := 2025 + Z.of_nat offset;
            baseline := baseTFR country;
            projected :=
              JS.toFixed3 (baseTFR country + (projectedTFR - baseTFR country) * progress);
            target := 2.1 |}.
Proof.
  intros Hle. unfold record_at, Multi.project. cbn [Multi.projectionData Multi.projectedTFR].
  rewrite nth_error_map, (years_upto_nth 20 offset Hle). reflexivity.
Qed.

Lemma progress_saturates (offset : nat) :
  (10 <= offset)%nat -> Rmin 1 (IZR (Z.of_nat offset) / 10) = 1.
Proof.
  intros Hle. apply Rmin_left.
  assert (H : 10 <= IZR (Z.of_nat offset)) by (apply IZR_le; lia).
  lra.
Qed.

Lemma toFixed3_baseTFR (countryKey : CountryKey) :
  JS.toFixed3 (baseTFR (Multi.countryData countryKey)) = baseTFR (Multi.countryData countryKey).
Proof.
  destruct countryKey; cbn [Multi.countryData baseTFR].
  - rewrite (toFixed3_nearest 0.72 720); lra.
  - rewrite (toFixed3_nearest 1.20 1200); lra.
Qed.

Lemma trajectory_endpoints_rounded
    (countryKey : CountryKey) (policies : Policies) (offset : nat) :
  (10 <= offset <= 20)%nat ->
  let country := Multi.countryData countryKey in
  let r := Multi.simulateTFRImpactForCountry policies countryKey in
  record_at (Multi.projectionData r) offset
  = Some {| year := 2025 + Z.of_nat offset; baseline := baseTFR country;
            projected := JS.toFixed3 (Multi.projectedTFR r); target := 2.1 |}.
Proof.
  intros [Hlo Hhi]. cbv zeta. unfold Multi.simulateTFRImpactForCountry.
  rewrite record_at_projectionData by lia. cbv zeta.
  rewrite progress_saturates by lia.
  rewrite Rmult_1_r.
  replace (baseTFR (Multi.countryData countryKey)
           + (Multi.projectedTFR (Multi.project (Multi.countryData countryKey) policies)
              - baseTFR (Multi.countryData countryKey)))
    with (Multi.projectedTFR (Multi.project (Multi.countryData countryKey) policies))
    by lra.
  reflexivity.
Qed.

(** C3, as amended.  For each country profile and every intensity vector,
    the record at year offset 0 has [projected] equal to the profile's
    [baseTFR], and every record at year offset 10 through 20 has
    [projected] equal to [projectedTFR] rounded to three decimals by
    [toFixed(3)]. *)
Theorem trajectory_endpoints
    (countryKey : CountryKey) (policies : Policies) (offset : nat) :
  (10 <= offset <= 20)%nat ->
  let country := Multi.countryData countryKey in
  let r := Multi.simulateTFRImpactForCountry policies countryKey in
  record_at (Multi.projectionData r) 0
  = Some {| year := 2025; baseline := baseTFR country;
            projected := baseTFR country; target := 2.1 |}
  /\ record_at (Multi.projectionData r) offset
     = Some {| year := 2025 + Z.of_nat offset; baseline := baseTFR country;
               projected := JS.toFixed3 (Multi.projectedTFR r); target := 2.1 |}.
Proof.
  intros [Hlo Hhi]. cbv zeta. unfold Multi.simulateTFRImpactForCountry. split.
  - rewrite record_at_projectionData by lia. cbv zeta.
    change (IZR (Z.of_nat 0)) with 0.
    rewrite Rmin_right by lra.
    replace (0 / 10) with 0 by lra. rewrite Rmult_0_r, Rplus_0_r.
    rewrite toFixed3_baseTFR. reflexivity.
  - apply (trajectory_endpoints_rounded countryKey policies offset). lia.
Qed.

Lemma trajectory_endpoints_witness :
  record_at
    (Multi.projectionData (Multi.simulateTFRImpactForCountry (mkPolicies 50 50 50 50) japan))
    15
  = Some {| year := 2040; baseline := 1.20;
            projected :=
              JS.toFixed3
                (Multi.projectedTFR
                   (Multi.simulateTFRImpactForCountry (mkPolicies 50 50 50 50) japan));
            target := 2.1 |}.
Proof.
  apply (trajectory_endpoints japan (mkPolicies 50 50 50 50) 15). lia.
Defined.

Lemma saturate_pos (x : R) : 0 < x -> 0 < saturate x.
Proof.
  intros Hx. unfold saturate.
  assert (H : exp (-2 * x) < 1).
  { rewrite <- exp_0. apply exp_increasing. lra. }
  nra.
Qed.

Lemma saturate_le_square (x : R) : 0 <= x -> saturate x <= 2 * x * x.
Proof.
  intros Hx. unfold saturate.
  pose proof (exp_ineq1_le (-2 * x)) as H.
  nra.
Qed.

Lemma projectedTFR_small_education :
  let r := Multi.simulateTFRImpactForCountry (mkPolicies 5 0 0 0) south_korea in
  0.72 < Multi.projectedTFR r < 0.7202.
Proof.
  cbv zeta. unfold Multi.simulateTFRImpactForCountry. rewrite projectedTFR_eq.
  assert (Hsum : Rsum (rawImpact (mkPolicies 5 0 0 0)) policy_keys = 0.0075).
  { unfold Rsum, policy_keys, rawImpact, intensityFraction.
    cbn [fold_right policies_get p_aiEducation p_workplaceAI p_childcareAI p_housingAI
         Multi.aiInterventions maxImpact].
    lra. }
  rewrite Hsum.
  pose proof (saturate_pos 0.0075 ltac:(lra)) as Hpos.
  pose proof (saturate_le_square 0.0075 ltac:(lra)) as Hsq.
  cbn [Multi.countryData baseTFR].
  rewrite Rmin_right by lra. lra.
Qed.

(** C3 as stated fails: for South Korea with the education slider at 5 and
    the others at 0, [projectedTFR] lies strictly between 0.72 and 0.7202,
    while the record at year offset 10 carries the rounded value 0.72. *)
Lemma trajectory_exact_counterexample :
  record_at
    (Multi.projectionData (Multi.simulateTFRImpactForCountry (mkPolicies 5 0 0 0) south_korea))
    10
  = Some {| year := 2035; baseline := 0.72; projected := 0.72; target := 2.1 |}
  /\ 0.72 <> Multi.projectedTFR
               (Multi.simulateTFRImpactForCountry (mkPolicies 5 0 0 0) south_korea).
Proof.
  pose proof projectedTFR_small_education as Hp. cbv zeta in Hp.
  split; [| lra].
  pose proof (trajectory_endpoints_rounded south_korea (mkPolicies 5 0 0 0) 10 ltac:(lia))
    as Hrec.
  cbv zeta in Hrec. rewrite Hrec.
  rewrite (toFixed3_nearest _ 720) by lra.
  cbn [Multi.countryData baseTFR]. do 2 f_equal. lra.
Qed.

(** ** The worked example: South Korea, every slider at 100 *)

Lemma exp_double_bounds (x l u l' u' : R) :
  0 <= l -> l <= exp x <= u -> l' <= l * l -> u * u <= u' ->
  l' <= exp (2 * x) <= u'.
Proof.
  intros Hl [Hlo Hhi] Hl' Hu'.
  replace (2 * x) with (x + x) by lra. rewrite exp_plus.
  split; nra.
Qed.

Lemma exp_small_bounds (x : R) : 0 <= x -> 1 - x <= exp (- x) <= / (1 + x).
Proof.
  intros Hx. split.
  - pose proof (exp_ineq1_le (- x)). lra.
  - rewrite exp_Ropp. apply Rinv_le_contravar; [lra |].
    apply exp_ineq1_le.
Qed.

(** From an enclosure of [exp x] to an enclosure of [exp (2 * x)] with
    the given rounded end points. *)
Ltac exp_double H l' u' :=
  match type of H with
  | _ <= exp ?x <= _ =>
      let H' := fresh "H" in
      assert (H' : l' <= exp (2 * x) <= u')
        by (apply (exp_double_bounds x _ _ l' u') with (2 := H); lra);
      clear H; rename H' into H
  end.

(** An enclosure of [exp (-0.9)], by eleven squarings from the enclosure
    of [exp (-0.9 / 2048)] between [1 - x] and [1 / (1 + x)]. *)
Lemma exp_m09_bounds : 0.406488 <= exp (- 0.9) <= 0.406651.
Proof.
  assert (H : 0.999560546 <= exp (- (0.9 / 2048)) <= 0.99956074).
  { pose proof (exp_small_bounds (0.9 / 2048) ltac:(lra)) as [Hlo Hhi].
    split; [lra |].
    apply Rle_trans with (1 := Hhi).
    apply Rmult_le_reg_l with (r := 1 + 0.9 / 2048); [lra |].
    rewrite Rinv_r by lra. lra. }
  exp_double H 0.999121285 0.999121673.
  exp_double H 0.998243342 0.998244118.
  exp_double H 0.996489769 0.99649132.
  exp_double H 0.992991859 0.992994951.
  exp_double H 0.986032832 0.986038973.
  exp_double H 0.972260745 0.972272857.
  exp_double H 0.945290956 0.945314509.
  exp_double H 0.893574991 0.893619521.
  exp_double H 0.798476264 0.798555849.
  exp_double H 0.637564344 0.637691444.
  exp_double H 0.406488292 0.406650378.
  match type of H with
  | _ <= exp ?x <= _ => replace x with (- 0.9) in H by lra
  end.
  lra.
Qed.

Lemma Rsum_rawImpact_aggressive :
  Rsum (rawImpact (mkPolicies 100 100 100 100)) policy_keys = 0.15 + 0.12 + 0.10 + 0.08.
Proof.
  unfold Rsum, policy_keys, rawImpact, intensityFraction.
  cbn [fold_right policies_get p_aiEducation p_workplaceAI p_childcareAI p_housingAI
       Multi.aiInterventions maxImpact].
  lra.
Qed.

(** C8. For South Korea (baseline 0.72) with the four sliders at 100, the
    summed raw impact is 0.15 + 0.12 + 0.10 + 0.08 = 0.45, the increase is
    0.45 * (1 - e^(-0.9)), with 1 - e^(-0.9) within 0.0002 of 0.5934, which
    is within 0.0001 of 0.267, and [projectedTFR] is within 0.0001 of 0.987;
    both show as 0.267 and 0.987 with three decimals. *)
Theorem south_korea_all_sliders_at_100 :
  let country := Multi.countryData south_korea in
  let policies := mkPolicies 100 100 100 100 in
  let r := Multi.simulateTFRImpactForCountry policies south_korea in
  baseTFR country = 0.72
  /\ Multi.acc_tfrImpact (Multi.policy_loop country policies) = 0.15 + 0.12 + 0.10 + 0.08
  /\ Multi.acc_tfrImpact (Multi.policy_loop country policies) = 0.45
  /\ Multi.tfrIncrease r = 0.45 * (1 - exp (- 0.9))
  /\ Rabs (1 - exp (- 0.9) - 0.5934) < 0.0002
  /\ Rabs (Multi.tfrIncrease r - 0.267) < 0.0001
  /\ Rabs (Multi.projectedTFR r - 0.987) < 0.0001
  /\ JS.toFixed3 (Multi.tfrIncrease r) = 0.267
  /\ JS.toFixed3 (Multi.projectedTFR r) = 0.987.
Proof.
  cbv zeta. pose proof exp_m09_bounds as He.
  assert (Hp : Multi.projectedTFR
                 (Multi.simulateTFRImpactForCountry (mkPolicies 100 100 100 100) south_korea)
               = 0.72 + 0.45 * (1 - exp (- 0.9))).
  { unfold Multi.simulateTFRImpactForCountry.
    rewrite projectedTFR_eq, Rsum_rawImpact_aggressive. unfold saturate.
    cbn [Multi.countryData baseTFR].
    replace (-2 * (0.15 + 0.12 + 0.10 + 0.08)) with (- 0.9) by lra.
    replace (0.15 + 0.12 + 0.10 + 0.08) with 0.45 by lra.
    apply Rmin_right. lra. }
  assert (Hi : Multi.tfrIncrease
                 (Multi.simulateTFRImpactForCountry (mkPolicies 100 100 100 100) south_korea)
               = 0.45 * (1 - exp (- 0.9))).
  { change (Multi.tfrIncrease
              (Multi.simulateTFRImpactForCountry (mkPolicies 100 100 100 100) south_korea))
      with (Multi.projectedTFR
              (Multi.simulateTFRImpactForCountry (mkPolicies 100 100 100 100) south_korea)
            - 0.72).
    rewrite Hp. lra. }
  rewrite loop_tfrImpact, Rsum_rawImpact_aggressive, Hp, Hi.
  repeat split; try lra.
  - apply Rabs_def1; lra.
  - apply Rabs_def1; lra.
  - apply Rabs_def1; lra.
  - rewrite (toFixed3_nearest _ 267); lra.
  - rewrite (toFixed3_nearest _ 987); lra.
Qed.

(** ** The single-country page against the multi-country page *)

Lemma aiInterventions_agree (policy : PolicyId) :
  Single.aiInterventions policy = Multi.aiInterventions policy.
Proof. destruct policy; reflexivity. Qed.

Lemma single_fold_tfrImpact (policies : Policies) (keys : list PolicyId) (acc : Single.Acc) :
  Single.acc_tfrImpact (fold_left (Single.policy_step policies) keys acc)
  = Single.acc_tfrImpact acc + Rsum (rawImpact policies) keys.
Proof.
  revert acc. induction keys as [| k keys IH]; intros acc; simpl.
  - lra.
  - rewrite IH. unfold rawImpact, intensityFraction. simpl.
    rewrite aiInterventions_agree. lra.
Qed.

Lemma single_projectedTFR_eq (selectedCountry : CountryKey) (policies : Policies) :
  Single.projectedTFR (Single.simulateTFRImpact selectedCountry policies)
  = Rmin 2.5 (baseTFR (Single.countryData selectedCountry)
              + saturate (Rsum (rawImpact policies) policy_keys)).
Proof.
  unfold Single.simulateTFRImpact. cbn [Single.projectedTFR].
  unfold Single.policy_loop. rewrite single_fold_tfrImpact.
  cbn [Single.acc_tfrImpact]. rewrite Rplus_0_l. reflexivity.
Qed.

Lemma saturated_impact_bounds (policies : Policies) :
  in_range policies -> 0 <= saturate (Rsum (rawImpact policies) policy_keys) <= 0.45.
Proof.
  intros Hr. pose proof (totalRawImpact_bounds policies Hr) as [H0 H1].
  pose proof (saturate_bounds _ H0). lra.
Qed.

(** C9 as stated fails for Japan: with every slider at 0 the single-country
    page projects 1.26 and the multi-country page projects 1.20. *)
Lemma single_multi_japan_counterexample :
  Single.projectedTFR (Single.simulateTFRImpact japan (mkPolicies 0 0 0 0)) = 1.26
  /\ Multi.projectedTFR (Multi.simulateTFRImpactForCountry (mkPolicies 0 0 0 0) japan) = 1.20
  /\ Single.projectedTFR (Single.simulateTFRImpact japan (mkPolicies 0 0 0 0))
     <> Multi.projectedTFR (Multi.simulateTFRImpactForCountry (mkPolicies 0 0 0 0) japan).
Proof.
  assert (Hs : Single.projectedTFR (Single.simulateTFRImpact japan (mkPolicies 0 0 0 0))
               = 1.26).
  { rewrite single_projectedTFR_eq.
    change (mkPolicies 0 0 0 0) with Multi.initialPolicies.
    rewrite Rsum_rawImpact_zero, saturate_0, Rplus_0_r.
    cbn [Single.countryData baseTFR]. apply Rmin_right. lra. }
  assert (Hm : Multi.projectedTFR
                 (Multi.simulateTFRImpactForCountry (mkPolicies 0 0 0 0) japan)
               = 1.20).
  { apply (zero_baseline_any_key japan). }
  rewrite Hs, Hm. repeat split. lra.
Qed.

(** C9, as amended.  For every intensity vector in [0,100]^4 the two
    pages add the same increase to their baselines: for South Korea the
    single-country [projectedTFR] equals the multi-country one; for Japan,
    whose baseline is 1.26 in the single-country page and 1.20 in the
    multi-country page, it is the multi-country one plus 0.06; and
    [tfrIncrease] is the same in both pages for either country. *)
Theorem single_country_agrees_up_to_baseline (policies : Policies) :
  in_range policies ->
  Single.projectedTFR (Single.simulateTFRImpact south_korea policies)
  = Multi.projectedTFR (Multi.simulateTFRImpactForCountry policies south_korea)
  /\ Single.projectedTFR (Single.simulateTFRImpact japan policies)
     = Multi.projectedTFR (Multi.simulateTFRImpactForCountry policies japan) + 0.06
  /\ forall countryKey,
       Single.tfrIncrease (Single.simulateTFRImpact countryKey policies)
       = Multi.tfrIncrease (Multi.simulateTFRImpactForCountry policies countryKey).
Proof.
  intros Hr. pose proof (saturated_impact_bounds policies Hr) as Hs.
  assert (Hsk : Single.projectedTFR (Single.simulateTFRImpact south_korea policies)
                = Multi.projectedTFR (Multi.simulateTFRImpactForCountry policies south_korea)).
  { rewrite single_projectedTFR_eq. unfold Multi.simulateTFRImpactForCountry.
    rewrite projectedTFR_eq. reflexivity. }
  assert (Hjp : Single.projectedTFR (Single.simulateTFRImpact japan policies)
                = Multi.projectedTFR (Multi.simulateTFRImpactForCountry policies japan)
                  + 0.06).
  { rewrite single_projectedTFR_eq. unfold Multi.simulateTFRImpactForCountry.
    rewrite projectedTFR_eq.
    cbn [Single.countryData Multi.countryData baseTFR].
    rewrite !Rmin_right by lra. lra. }
  split; [exact Hsk | split; [exact Hjp |]].
  intros [].
  - change (Single.projectedTFR (Single.simulateTFRImpact south_korea policies) - 0.72
            = Multi.projectedTFR (Multi.simulateTFRImpactForCountry policies south_korea)
              - 0.72).
    rewrite Hsk. reflexivity.
  - change (Single.projectedTFR (Single.simulateTFRImpact japan policies) - 1.26
            = Multi.projectedTFR (Multi.simulateTFRImpactForCountry policies japan)
              - 1.20).
    rewrite Hjp. lra.
Qed.

Lemma single_country_agrees_up_to_baseline_witness :
  Single.projectedTFR (Single.simulateTFRImpact japan (mkPolicies 50 50 50 50))
  = Multi.projectedTFR (Multi.simulateTFRImpactForCountry (mkPolicies 50 50 50 50) japan)
    + 0.06.
Proof.
  apply (single_country_agrees_up_to_baseline (mkPolicies 50 50 50 50)).
  intros []; simpl; lia.
Defined.

(** ** Range of the adjusted factor scores *)

Lemma intensityFraction_bounds (policies : Policies) (policy : PolicyId) :
  in_range policies -> 0 <= intensityFraction policies policy <= 1.
Proof.
  intros Hr. destruct (Hr policy) as [H0 H1].
  apply IZR_le in H0, H1. unfold intensityFraction. lra.
Qed.

Lemma baseFactors_bounds (countryKey : CountryKey) (factor : Factor) :
  0 <= factors_get (baseFactors (Multi.countryData countryKey)) factor <= 100.
Proof.
  destruct countryKey, factor;
    cbn [Multi.countryData baseFactors factors_get f_educationCost f_workLifeBalance
         f_childcareCost f_housingCost]; lra.
Qed.

Lemma workLifeBalance_base_bound (countryKey : CountryKey) :
  factors_get (baseFactors (Multi.countryData countryKey)) workLifeBalance <= 30.
Proof.
  destruct countryKey;
    cbn [Multi.countryData baseFactors factors_get f_workLifeBalance]; lra.
Qed.

Lemma every_factor_declared (factor : Factor) : exists policy, declares policy factor.
Proof.
  destruct factor;
    [exists aiEducation | exists workplaceAI | exists childcareAI | exists housingAI];
    left; reflexivity.
Qed.

(** C10. For both country profiles and every intensity vector in
    [0,100]^4, every score of [factorReductions] is in [0,100]: it is the
    baseline score times a multiplier, which is in [0.6, 1] for the three
    cost factors and in [1, 1.4] for work-life balance, whose baseline is at
    most 30. *)
Theorem factorReductions_within_0_100
    (countryKey : CountryKey) (policies : Policies) (factor : Factor) :
  in_range policies ->
  let r := Multi.simulateTFRImpactForCountry policies countryKey in
  let base := factors_get (baseFactors (Multi.countryData countryKey)) factor in
  0 <= factors_get (Multi.factorReductions r) factor <= 100
  /\ exists multiplier,
       factors_get (Multi.factorReductions r) factor = base * multiplier
       /\ match factor with
          | workLifeBalance => 1 <= multiplier <= 1.4 /\ base <= 30
          | _ => 0.6 <= multiplier <= 1
          end.
Proof.
  intros Hr. cbv zeta. unfold Multi.simulateTFRImpactForCountry.
  destruct (every_factor_declared factor) as [policy Hd].
  rewrite (factorReductions_any_profile _ policies policy factor Hd).
  pose proof (intensityFraction_bounds policies policy Hr) as Hi.
  pose proof (baseFactors_bounds countryKey factor) as Hb.
  pose proof (workLifeBalance_base_bound countryKey) as Hw.
  split.
  - destruct factor; cbn [Factor_eqb] in *; nra.
  - eexists. split; [reflexivity |].
    destruct factor; cbn [Factor_eqb]; lra.
Qed.

Lemma factorReductions_within_0_100_witness :
  0 <= factors_get
         (Multi.factorReductions
            (Multi.simulateTFRImpactForCountry (mkPolicies 100 100 100 100) japan))
         workLifeBalance
    <= 100.
Proof.
  apply (factorReductions_within_0_100 japan (mkPolicies 100 100 100 100) workLifeBalance).
  intros []; simpl; lia.
Defined.

(** ** Further properties of the projection in [index.js] *)

Lemma saturate_strict_mono (x y : R) : 0 <= x -> x < y -> saturate x < saturate y.
Proof.
  intros Hx Hxy. unfold saturate.
  assert (Hex : exp (-2 * y) < exp (-2 * x)) by (apply exp_increasing; lra).
  pose proof (exp_neg_le_1 (2 * x) ltac:(lra)) as Hx1.
  replace (- (2 * x)) with (-2 * x) in Hx1 by lra.
  nra.
Qed.

Lemma projectedTFR_uncapped (countryKey : CountryKey) (policies : Policies) :
  in_range policies ->
  Multi.projectedTFR (Multi.simulateTFRImpactForCountry policies countryKey)
  = baseTFR (Multi.countryData countryKey)
    + saturate (Rsum (rawImpact policies) policy_keys).
Proof.
  intros Hr. unfold Multi.simulateTFRImpactForCountry. rewrite projectedTFR_eq.
  pose proof (saturated_impact_bounds policies Hr) as Hs.
  pose proof (baseTFR_below_ceiling countryKey) as Hb.
  apply Rmin_right.
  destruct countryKey; cbn [Multi.countryData baseTFR] in *; lra.
Qed.



Lemma projectedTFR_below_target (countryKey : CountryKey) (policies : Policies) :
  in_range policies ->
  Multi.projectedTFR (Multi.simulateTFRImpactForCountry policies countryKey) < 2.1.
Proof.
  intros Hr. rewrite (projectedTFR_uncapped countryKey policies Hr).
  pose proof (saturated_impact_bounds policies Hr) as Hs.
  destruct countryKey; cbn [Multi.countryData baseTFR]; lra.
Qed.

(** X2. For both profiles and sliders in [0,100] the projection stays below the
    replacement level 2.1, so the "Time to Target" card always reads
    "20+". *)
Theorem timeToTarget_always_20_plus (countryKey : CountryKey) (policies : Policies) :
  in_range policies ->
  Multi.projectedTFR (Multi.simulateTFRImpactForCountry policies countryKey) < 2.1
  /\ MultiView.timeToTarget (Multi.simulateTFRImpactForCountry policies countryKey)
     = "20+"%string.
Proof.
  intros Hr. pose proof (projectedTFR_below_target countryKey policies Hr) as Hlt.
  split; [exact Hlt |].
  unfold MultiView.timeToTarget.
  destruct (Rle_dec 2.1 _) as [Hge | _]; [lra | reflexivity].
Qed.

Lemma timeToTarget_always_20_plus_witness :
  MultiView.timeToTarget
    (Multi.simulateTFRImpactForCountry (mkPolicies 100 100 100 100) japan)
  = "20+"%string.
Proof.
  apply (timeToTarget_always_20_plus japan (mkPolicies 100 100 100 100)).
  intros []; simpl; lia.
Defined.

Lemma totalRawImpact_set_strict (policies : Policies) (policy : PolicyId) (v : Z) :
  (policies_get policies policy < v)%Z ->
  Rsum (rawImpact policies) policy_keys
  < Rsum (rawImpact (policies_set policies policy v)) policy_keys.
Proof.
  intros Hv. apply IZR_lt in Hv.
  unfold Rsum, policy_keys, rawImpact, intensityFraction. cbn [fold_right].
  rewrite !policies_get_set.
  destruct policy; cbn [PolicyId_eqb Multi.aiInterventions maxImpact] in *; lra.
Qed.

Lemma in_range_set (policies : Policies) (policy : PolicyId) (v : Z) :
  in_range policies -> (0 <= v <= 100)%Z -> in_range (policies_set policies policy v).
Proof.
  intros Hr Hv q. rewrite policies_get_set.
  destruct (PolicyId_eqb q policy); [exact Hv | apply Hr].
Qed.

(** X3. For both profiles, raising one slider inside [0,100] while the others
    keep their values strictly raises [projectedTFR]. *)
Theorem projectedTFR_strictly_monotone
    (countryKey : CountryKey) (policies : Policies) (policy : PolicyId) (v : Z) :
  in_range policies -> (policies_get policies policy < v <= 100)%Z ->
  Multi.projectedTFR (Multi.simulateTFRImpactForCountry policies countryKey)
  < Multi.projectedTFR
      (Multi.simulateTFRImpactForCountry (policies_set policies policy v) countryKey).
Proof.
  intros Hr [Hlt Hle].
  assert (Hr' : in_range (policies_set policies policy v)).
  { apply in_range_set; [exact Hr |]. destruct (Hr policy). lia. }
  rewrite !projectedTFR_uncapped by assumption.
  apply Rplus_lt_compat_l, saturate_strict_mono.
  - apply totalRawImpact_bounds, Hr.
  - apply totalRawImpact_set_strict, Hlt.
Qed.

Lemma projectedTFR_strictly_monotone_witness :
  Multi.projectedTFR (Multi.simulateTFRImpactForCountry (mkPolicies 0 0 0 0) south_korea)
  < Multi.projectedTFR
      (Multi.simulateTFRImpactForCountry
         (policies_set (mkPolicies 0 0 0 0) housingAI 5) south_korea).
Proof.
  apply (projectedTFR_strictly_monotone south_korea (mkPolicies 0 0 0 0) housingAI 5).
  - intros []; simpl; lia.
  - simpl; lia.
Defined.

(** Some slider is above zero. *)
Definition active (policies : Policies) : Prop :=
  exists policy, (0 < policies_get policies policy)%Z.

Lemma not_active_zero (policies : Policies) :
  in_range policies -> ~ active policies -> policies = mkPolicies 0 0 0 0.
Proof.
  intros Hr Hn.
  assert (Hz : forall policy, policies_get policies policy = 0%Z).
  { intros policy. destruct (Hr policy) as [H0 _].
    destruct (Z.eq_dec (policies_get policies policy) 0) as [He | Hne]; [exact He |].
    exfalso. apply Hn. exists policy. lia. }
  pose proof (Hz aiEducation). pose proof (Hz workplaceAI).
  pose proof (Hz childcareAI). pose proof (Hz housingAI).
  destruct policies; cbn [policies_get p_aiEducation p_workplaceAI p_childcareAI
                          p_housingAI] in *.
  congruence.
Qed.

Lemma active_dec (policies : Policies) :
  in_range policies -> active policies \/ policies = mkPolicies 0 0 0 0.
Proof.
  intros Hr.
  destruct (Z_lt_dec 0 (policies_get policies aiEducation)) as [H1 | H1];
    [left; now exists aiEducation |].
  destruct (Z_lt_dec 0 (policies_get policies workplaceAI)) as [H2 | H2];
    [left; now exists workplaceAI |].
  destruct (Z_lt_dec 0 (policies_get policies childcareAI)) as [H3 | H3];
    [left; now exists childcareAI |].
  destruct (Z_lt_dec 0 (policies_get policies housingAI)) as [H4 | H4];
    [left; now exists housingAI |].
  right. apply not_active_zero; [exact Hr |].
  intros [[] Hp]; contradiction.
Qed.

Lemma active_impact_positive (policies : Policies) :
  in_range policies -> active policies -> 0 < Rsum (rawImpact policies) policy_keys.
Proof.
  intros Hr [policy Hp]. apply IZR_lt in Hp.
  pose proof (rawImpact_nonneg policies aiEducation Hr).
  pose proof (rawImpact_nonneg policies workplaceAI Hr).
  pose proof (rawImpact_nonneg policies childcareAI Hr).
  pose proof (rawImpact_nonneg policies housingAI Hr).
  unfold Rsum, policy_keys. cbn [fold_right].
  assert (0 < rawImpact policies policy).
  { unfold rawImpact, intensityFraction.
    destruct policy; cbn [Multi.aiInterventions maxImpact]; lra. }
  destruct policy; lra.
Qed.

Lemma active_cost_positive (policies : Policies) :
  in_range policies -> active policies -> 0 < Rsum (rawCost policies) policy_keys.
Proof.
  intros Hr [policy Hp]. apply IZR_lt in Hp.
  pose proof (rawCost_nonneg policies aiEducation Hr).
  pose proof (rawCost_nonneg policies workplaceAI Hr).
  pose proof (rawCost_nonneg policies childcareAI Hr).
  pose proof (rawCost_nonneg policies housingAI Hr).
  unfold Rsum, policy_keys. cbn [fold_right].
  assert (0 < rawCost policies policy).
  { unfold rawCost.
    destruct policy; cbn [Multi.aiInterventions costPerPoint]; lra. }
  destruct policy; lra.
Qed.

Lemma totalCost_eq (countryKey : CountryKey) (policies : Policies) :
  Multi.totalCost (Multi.simulateTFRImpactForCountry policies countryKey)
  = Rsum (rawCost policies) policy_keys / 1000000.
Proof.
  unfold Multi.simulateTFRImpactForCountry, Multi.project.
  cbn [Multi.totalCost]. rewrite loop_totalCost. reflexivity.
Qed.

Lemma tfrIncrease_eq (countryKey : CountryKey) (policies : Policies) :
  in_range policies ->
  Multi.tfrIncrease (Multi.simulateTFRImpactForCountry policies countryKey)
  = saturate (Rsum (rawImpact policies) policy_keys).
Proof.
  intros Hr.
  change (Multi.tfrIncrease (Multi.simulateTFRImpactForCountry policies countryKey))
    with (Multi.projectedTFR (Multi.simulateTFRImpactForCountry policies countryKey)
          - baseTFR (Multi.countryData countryKey)).
  rewrite (projectedTFR_uncapped countryKey policies Hr). lra.
Qed.

(** X4. With sliders in [0,100], the increase of the rate and the total cost
    are both positive when some slider is above zero, and both zero
    otherwise. *)
Theorem increase_and_cost_positive_iff_active
    (countryKey : CountryKey) (policies : Policies) :
  in_range policies ->
  let r := Multi.simulateTFRImpactForCountry policies countryKey in
  (active policies /\ 0 < Multi.tfrIncrease r /\ 0 < Multi.totalCost r)
  \/ (~ active policies /\ Multi.tfrIncrease r = 0 /\ Multi.totalCost r = 0).
Proof.
  intros Hr. cbv zeta.
  rewrite (tfrIncrease_eq countryKey policies Hr), totalCost_eq.
  destruct (active_dec policies Hr) as [Ha | Hz].
  - left. split; [exact Ha |].
    pose proof (active_impact_positive policies Hr Ha) as Hi.
    pose proof (active_cost_positive policies Hr Ha) as Hc.
    pose proof (saturate_pos _ Hi). split; lra.
  - right. subst policies. split.
    + intros [[] Hp]; cbn in Hp; lia.
    + change (mkPolicies 0 0 0 0) with Multi.initialPolicies.
      rewrite Rsum_rawImpact_zero, Rsum_rawCost_zero, saturate_0. split; lra.
Qed.

Lemma increase_and_cost_positive_iff_active_witness :
  (active (mkPolicies 0 5 0 0)
   /\ 0 < Multi.tfrIncrease
            (Multi.simulateTFRImpactForCountry (mkPolicies 0 5 0 0) south_korea)
   /\ 0 < Multi.totalCost
            (Multi.simulateTFRImpactForCountry (mkPolicies 0 5 0 0) south_korea))
  \/ (~ active (mkPolicies 0 5 0 0)
      /\ Multi.tfrIncrease
           (Multi.simulateTFRImpactForCountry (mkPolicies 0 5 0 0) south_korea) = 0
      /\ Multi.totalCost
           (Multi.simulateTFRImpactForCountry (mkPolicies 0 5 0 0) south_korea) = 0).
Proof.
  apply (increase_and_cost_positive_iff_active south_korea (mkPolicies 0 5 0 0)).
  intros []; simpl; lia.
Defined.

Lemma demographics_positive (countryKey : CountryKey) :
  0 < population (demographics (Multi.countryData countryKey))
  /\ 0 < gdpPerCapita (demographics (Multi.countryData countryKey)).
Proof.
  destruct countryKey; cbn [Multi.countryData demographics population gdpPerCapita];
    split; lra.
Qed.

Lemma div_nonzero (x y : R) : y <> 0 -> JS.div x y = JS.Finite (x / y).
Proof.
  intros Hy. unfold JS.div.
  destruct (Req_dec_T y 0) as [He | _]; [contradiction | reflexivity].
Qed.



(** ** What [ResultsDisplay] shows *)

Lemma positive_scaled (c : R) (v : Z) :
  0 < c -> MultiView.positive (Some (c * (IZR v / 100))) = (0 <? v)%Z.
Proof.
  intros Hc. unfold MultiView.positive.
  destruct (Z.ltb_spec 0 v) as [Hv | Hv].
  - apply IZR_lt in Hv. destruct (Rlt_dec 0 _) as [_ | Hn]; [reflexivity |].
    exfalso. apply Hn. apply Rmult_lt_0_compat; lra.
  - apply IZR_le in Hv. destruct (Rlt_dec 0 _) as [Hp | _]; [| reflexivity].
    exfalso. assert (c * (IZR v / 100) <= 0) by nra. lra.
Qed.

Lemma policyImpacts_entries (countryKey : CountryKey) (policies : Policies) :
  Multi.policyImpacts (Multi.simulateTFRImpactForCountry policies countryKey)
  = map (fun policy =>
           (policy,
            maxImpact (Multi.aiInterventions policy)
            * (IZR (policies_get policies policy) / 100)))
      policy_keys.
Proof. reflexivity. Qed.

Lemma active_iff_some_positive (policies : Policies) :
  active policies
  <-> filter (fun policy => (0 <? policies_get policies policy)%Z) policy_keys <> [].
Proof.
  split.
  - intros [policy Hp] Hnil.
    assert (Hin : In policy
                    (filter (fun q => (0 <? policies_get policies q)%Z) policy_keys)).
    { apply filter_In. split.
      - destruct policy; simpl; auto.
      - apply Z.ltb_lt, Hp. }
    rewrite Hnil in Hin. destruct Hin.
  - intros Hne.
    destruct (filter (fun q => (0 <? policies_get policies q)%Z) policy_keys)
      as [| policy rest] eqn:Hf; [contradiction |].
    assert (Hin : In policy
                    (filter (fun q => (0 <? policies_get policies q)%Z) policy_keys)).
    { rewrite Hf. left. reflexivity. }
    apply filter_In in Hin. destruct Hin as [_ Hp].
    exists policy. apply Z.ltb_lt, Hp.
Qed.

(** X6. For every slider vector, the pie data lists exactly the policies whose
    slider is above zero, in slider order, each with its raw impact; the
    pie is shown exactly when some slider is above zero. *)
Theorem pie_lists_active_policies (countryKey : CountryKey) (policies : Policies) :
  let r := Multi.simulateTFRImpactForCountry policies countryKey in
  MultiView.policyImpactData r
  = map (fun policy =>
           {| MultiView.name := MultiView.interventionName policy;
              MultiView.value :=
                Some (maxImpact (Multi.aiInterventions policy)
                      * (IZR (policies_get policies policy) / 100)) |})
      (filter (fun policy => (0 <? policies_get policies policy)%Z) policy_keys)
  /\ (MultiView.pieShown r = true <-> active policies).
Proof.
  cbv zeta.
  assert (Hdata :
    MultiView.policyImpactData (Multi.simulateTFRImpactForCountry policies countryKey)
    = map (fun policy =>
             {| MultiView.name := MultiView.interventionName policy;
                MultiView.value :=
                  Some (maxImpact (Multi.aiInterventions policy)
                        * (IZR (policies_get policies policy) / 100)) |})
        (filter (fun policy => (0 <? policies_get policies policy)%Z) policy_keys)).
  { unfold MultiView.policyImpactData. rewrite policyImpacts_entries.
    unfold MultiView.keys, policy_keys.
    cbn [map fst filter JS.get PolicyId_eqb MultiView.value
         Multi.aiInterventions maxImpact].
    rewrite !positive_scaled by lra.
    destruct (0 <? policies_get policies aiEducation)%Z,
             (0 <? policies_get policies workplaceAI)%Z,
             (0 <? policies_get policies childcareAI)%Z,
             (0 <? policies_get policies housingAI)%Z; reflexivity. }
  split; [exact Hdata |].
  unfold MultiView.pieShown. rewrite Hdata, length_map, active_iff_some_positive.
  destruct (filter _ policy_keys) as [| p rest]; cbn [List.length Nat.ltb Nat.leb].
  - split; [discriminate | intros H; now elim H].
  - split; [discriminate | reflexivity].
Qed.

(** X7. For both profiles and sliders in [0,100], no bar of the barrier chart
    grows: every "after" value is between 0 and its "before" value. *)
Theorem barrier_bars_never_grow (countryKey : CountryKey) (policies : Policies) :
  in_range policies ->
  Forall (fun item => 0 <= MultiView.after item <= MultiView.before item)
    (MultiView.barrierData (Multi.countryData countryKey)
       (Multi.simulateTFRImpactForCountry policies countryKey)).
Proof.
  intros Hr.
  pose proof (intensityFraction_bounds policies aiEducation Hr) as H1.
  pose proof (intensityFraction_bounds policies workplaceAI Hr) as H2.
  pose proof (intensityFraction_bounds policies childcareAI Hr) as H3.
  pose proof (intensityFraction_bounds policies housingAI Hr) as H4.
  unfold intensityFraction in *.
  unfold MultiView.barrierData.
  repeat apply Forall_cons; try apply Forall_nil;
    cbn [MultiView.after MultiView.before];
    destruct countryKey;
    unfold Multi.simulateTFRImpactForCountry, Multi.project, Multi.policy_loop,
      policy_keys, Multi.policy_step, Multi.factor_step;
    cbn [Multi.factorReductions Multi.acc_factorReductions fold_left
         Multi.aiInterventions factors Factor_eqb factors_scale Multi.countryData
         baseFactors f_educationCost f_workLifeBalance f_childcareCost f_housingCost];
    lra.
Qed.

Lemma barrier_bars_never_grow_witness :
  Forall (fun item => 0 <= MultiView.after item <= MultiView.before item)
    (MultiView.barrierData (Multi.countryData japan)
       (Multi.simulateTFRImpactForCountry (mkPolicies 50 100 0 5) japan)).
Proof.
  apply (barrier_bars_never_grow japan (mkPolicies 50 100 0 5)).
  intros []; simpl; lia.
Defined.



(** ** The shape of the trajectory *)

Lemma toFixed3_nonneg_eq (x : R) :
  0 <= x -> JS.toFixed3 x = IZR (Zfloor (x * 1000 + / 2)) / 1000.
Proof.
  intros Hx. unfold JS.toFixed3.
  destruct (Rlt_dec x 0) as [Hneg | _]; [lra | reflexivity].
Qed.

Lemma toFixed3_mono (x y : R) : 0 <= x -> x <= y -> JS.toFixed3 x <= JS.toFixed3 y.
Proof.
  intros Hx Hxy. rewrite !toFixed3_nonneg_eq by lra.
  assert (H : (Zfloor (x * 1000 + / 2) <= Zfloor (y * 1000 + / 2))%Z)
    by (apply Zfloor_le; lra).
  apply IZR_le in H. lra.
Qed.

Lemma toFixed3_error (x : R) : 0 <= x -> Rabs (JS.toFixed3 x - x) <= 0.0005.
Proof.
  intros Hx. rewrite toFixed3_nonneg_eq by exact Hx.
  pose proof (Zfloor_bound (x * 1000 + / 2)) as [Hlo Hhi].
  apply Rabs_le. lra.
Qed.

Lemma progress_bounds (offset : nat) : 0 <= Rmin 1 (IZR (Z.of_nat offset) / 10) <= 1.
Proof.
  assert (H : 0 <= IZR (Z.of_nat offset)) by (apply IZR_le; lia).
  split; [apply Rmin_glb; lra | apply Rmin_l].
Qed.

Lemma progress_mono (i j : nat) :
  (i <= j)%nat ->
  Rmin 1 (IZR (Z.of_nat i) / 10) <= Rmin 1 (IZR (Z.of_nat j) / 10).
Proof.
  intros Hij. apply Rle_min_compat_l.
  assert (H : IZR (Z.of_nat i) <= IZR (Z.of_nat j)) by (apply IZR_le; lia).
  lra.
Qed.

Lemma projectionData_length (country : Country) (policies : Policies) :
  List.length (Multi.projectionData (Multi.project country policies)) = 21%nat.
Proof.
  unfold Multi.project. cbn [Multi.projectionData].
  rewrite length_map. unfold years_upto. rewrite length_map, length_seq. reflexivity.
Qed.

(** X9. For both profiles and sliders in [0,100], the trajectory has a record
    for each year offset 0 to 20 and none after; its year is 2025 plus the
    offset, and along the offsets the projected values never decrease: they
    start at the baseline and stay at or below the rounded [projectedTFR]. *)
Theorem trajectory_never_decreases
    (countryKey : CountryKey) (policies : Policies) (i j : nat) :
  in_range policies -> (i <= j <= 20)%nat ->
  let country := Multi.countryData countryKey in
  let r := Multi.simulateTFRImpactForCountry policies countryKey in
  record_at (Multi.projectionData r) 21 = None
  /\ exists pi pj,
       record_at (Multi.projectionData r) i = Some pi
       /\ record_at (Multi.projectionData r) j = Some pj
       /\ year pi = (2025 + Z.of_nat i)%Z
       /\ year pj = (2025 + Z.of_nat j)%Z
       /\ baseTFR country <= projected pi
       /\ projected pi <= projected pj
       /\ projected pj <= JS.toFixed3 (Multi.projectedTFR r).
Proof.
  intros Hr [Hij Hj]. cbv zeta.
  pose proof (projectedTFR_uncapped countryKey policies Hr) as Hp.
  pose proof (saturated_impact_bounds policies Hr) as [Hs0 _].
  pose proof (baseTFR_below_ceiling countryKey) as [Hb0 _].
  pose proof (toFixed3_baseTFR countryKey) as Hfix.
  pose proof (progress_bounds i) as [Hi0 Hi1].
  pose proof (progress_bounds j) as [Hj0 Hj1].
  pose proof (progress_mono i j Hij) as Hmono.
  unfold Multi.simulateTFRImpactForCountry in *.
  split.
  - unfold record_at. apply nth_error_None. rewrite projectionData_length. lia.
  - rewrite !record_at_projectionData by lia. cbv zeta.
    set (base := baseTFR (Multi.countryData countryKey)) in *.
    set (proj := Multi.projectedTFR _) in *.
    set (ti := Rmin 1 (IZR (Z.of_nat i) / 10)) in *.
    set (tj := Rmin 1 (IZR (Z.of_nat j) / 10)) in *.
    eexists. eexists.
    split; [reflexivity |]. split; [reflexivity |].
    cbn [year projected].
    split; [reflexivity |]. split; [reflexivity |].
    split; [| split].
    + rewrite <- Hfix at 1. apply toFixed3_mono; nra.
    + apply toFixed3_mono; nra.
    + apply toFixed3_mono; nra.
Qed.

Lemma trajectory_never_decreases_witness :
  record_at
    (Multi.projectionData (Multi.simulateTFRImpactForCountry (mkPolicies 50 0 50 0) japan))
    21
  = None.
Proof.
  apply (trajectory_never_decreases japan (mkPolicies 50 0 50 0) 3 12).
  - intros []; simpl; lia.
  - lia.
Defined.

(** X10. For both profiles and sliders in [0,100], the record at each offset up
    to 20 is within 0.0005 of the linear ramp from the baseline to
    [projectedTFR] that reaches [projectedTFR] at offset 10. *)
Theorem trajectory_tracks_ramp
    (countryKey : CountryKey) (policies : Policies) (offset : nat) :
  in_range policies -> (offset <= 20)%nat ->
  let country := Multi.countryData countryKey in
  let r := Multi.simulateTFRImpactForCountry policies countryKey in
  exists pt,
    record_at (Multi.projectionData r) offset = Some pt
    /\ Rabs (projected pt
             - (baseTFR country
                + (Multi.projectedTFR r - baseTFR country)
                  * Rmin 1 (IZR (Z.of_nat offset) / 10)))
       <= 0.0005.
Proof.
  intros Hr Ho. cbv zeta.
  pose proof (projectedTFR_uncapped countryKey policies Hr) as Hp.
  pose proof (saturated_impact_bounds policies Hr) as [Hs0 _].
  pose proof (baseTFR_below_ceiling countryKey) as [Hb0 _].
  pose proof (progress_bounds offset) as [Ht0 Ht1].
  unfold Multi.simulateTFRImpactForCountry in *.
  rewrite record_at_projectionData by exact Ho. cbv zeta.
  eexists. split; [reflexivity |]. cbn [projected].
  apply toFixed3_error. nra.
Qed.

Lemma trajectory_tracks_ramp_witness :
  exists pt,
    record_at
      (Multi.projectionData
         (Multi.simulateTFRImpactForCountry (mkPolicies 100 100 100 100) south_korea))
      4
    = Some pt
    /\ Rabs (projected pt
             - (baseTFR (Multi.countryData south_korea)
                + (Multi.projectedTFR
                     (Multi.simulateTFRImpactForCountry
                        (mkPolicies 100 100 100 100) south_korea)
                   - baseTFR (Multi.countryData south_korea))
                  * Rmin 1 (IZR (Z.of_nat 4) / 10)))
       <= 0.0005.
Proof.
  apply (trajectory_tracks_ramp south_korea (mkPolicies 100 100 100 100) 4).
  - intros []; simpl; lia.
  - lia.
Defined.

(** ** The page as a transition system *)

(** Every slider holds a value the range input can produce. *)
Definition on_grid (p : Policies) : Prop :=
  forall policy, MultiPage.slider_value (policies_get p policy).

(** What holds in every state the page can reach. *)
Definition page_invariant (s : MultiPage.State) : Prop :=
  on_grid (MultiPage.policies s)
  /\ (List.length (MultiPage.timers s) <= 1)%nat
  /\ (MultiPage.isSimulating s = true <-> MultiPage.timers s <> [])
  /\ Forall (fun t => on_grid (snd t)) (MultiPage.timers s)
  /\ forall key res,
       In (key, res) (MultiPage.results s) ->
       exists p, on_grid p /\ res = Multi.simulateTFRImpactForCountry p key.

Lemma on_grid_in_range (p : Policies) : on_grid p -> in_range p.
Proof. intros Hg policy. apply (Hg policy). Qed.

Lemma on_grid_const (v : Z) :
  MultiPage.slider_value v -> on_grid (mkPolicies v v v v).
Proof. intros Hv []; exact Hv. Qed.

Lemma on_grid_set (p : Policies) (policy : PolicyId) (v : Z) :
  on_grid p -> MultiPage.slider_value v -> on_grid (policies_set p policy v).
Proof.
  intros Hg Hv q. rewrite policies_get_set.
  destruct (PolicyId_eqb q policy); [exact Hv | apply Hg].
Qed.

Lemma runSimulation_entries
    (cm : bool) (sc : CountryKey) (p : Policies) (key : CountryKey) (res : Multi.Result) :
  In (key, res) (Multi.runSimulation cm sc p) ->
  res = Multi.simulateTFRImpactForCountry p key.
Proof.
  unfold Multi.runSimulation. intros Hin. apply in_map_iff in Hin.
  destruct Hin as [k [Heq _]]. inversion Heq. reflexivity.
Qed.

Lemma page_invariant_initial : page_invariant MultiPage.initialState.
Proof.
  unfold page_invariant, MultiPage.initialState; cbn.
  split; [apply on_grid_const; unfold MultiPage.slider_value; split; [lia | reflexivity] |].
  split; [lia |]. split; [split; [discriminate | intros H; now elim H] |].
  split; [constructor |]. intros key res [].
Qed.

Lemma page_invariant_setPolicies (s : MultiPage.State) (p : Policies) :
  page_invariant s -> on_grid p -> page_invariant (MultiPage.setPolicies s p).
Proof.
  intros (Hp & Hlen & Hsim & Hcap & Hres) Hg.
  unfold page_invariant, MultiPage.setPolicies; cbn.
  exact (conj Hg (conj Hlen (conj Hsim (conj Hcap Hres)))).
Qed.

Lemma page_invariant_step (s : MultiPage.State) (e : MultiPage.Event) :
  page_invariant s -> MultiPage.valid_event e -> page_invariant (MultiPage.handle s e).
Proof.
  intros Hinv Hv. pose proof Hinv as (Hp & Hlen & Hsim & Hcap & Hres).
  destruct e; cbn [MultiPage.handle MultiPage.valid_event] in *.
  - (* country select *)
    destruct (MultiPage.compareMode s); [exact Hinv |].
    unfold page_invariant; cbn.
    exact (conj Hp (conj Hlen (conj Hsim (conj Hcap Hres)))).
  - (* compare mode *)
    unfold page_invariant; cbn.
    exact (conj Hp (conj Hlen (conj Hsim (conj Hcap Hres)))).
  - (* slider *)
    apply page_invariant_setPolicies; [exact Hinv |]. now apply on_grid_set.
  - apply page_invariant_setPolicies; [exact Hinv |].
    apply on_grid_const. split; [lia | reflexivity].
  - apply page_invariant_setPolicies; [exact Hinv |].
    apply on_grid_const. split; [lia | reflexivity].
  - apply page_invariant_setPolicies; [exact Hinv |].
    apply on_grid_const. split; [lia | reflexivity].
  - (* run *)
    destruct (MultiPage.isSimulating s) eqn:Hs; [exact Hinv |].
    assert (Ht : MultiPage.timers s = []).
    { destruct (MultiPage.timers s) as [| t ts] eqn:Hts; [reflexivity |].
      assert (false = true) by (apply Hsim; discriminate). discriminate. }
    unfold page_invariant, MultiPage.runSimulation; cbn. rewrite Ht. cbn.
    split; [exact Hp |]. split; [lia |].
    split; [split; [discriminate | reflexivity] |].
    split; [constructor; [exact Hp | constructor] | exact Hres].
  - (* timer *)
    unfold MultiPage.timerCallback.
    destruct (MultiPage.timers s) as [| [[cm sc] p] rest] eqn:Hts; [exact Hinv |].
    assert (Hrest : rest = []) by (destruct rest; [reflexivity | cbn in Hlen; lia]).
    subst rest. inversion Hcap as [| t l Hgp _]; subst. cbn in Hgp.
    unfold page_invariant; cbn.
    split; [exact Hp |]. split; [lia |].
    split; [split; [discriminate | intros H; now elim H] |].
    split; [constructor |].
    intros key res Hin. exists p. split; [exact Hgp |].
    now apply (runSimulation_entries cm sc).
  - (* reset *)
    unfold page_invariant, MultiPage.resetSimulation; cbn.
    split; [apply on_grid_const; split; [lia | reflexivity] |].
    split; [exact Hlen |]. split; [exact Hsim |]. split; [exact Hcap |].
    intros key res [].
Qed.

(** X11. From the initial page, after any sequence of events whose slider
    values come from the range input (multiples of 5 in [0,100]): every
    slider is a multiple of 5 in [0,100], at most one simulation is pending
    and [isSimulating] is set exactly then, and every result on display is
    the projection of such a slider vector for its country. *)
Theorem reachable_pages_keep_invariant (events : list MultiPage.Event) :
  Forall MultiPage.valid_event events ->
  page_invariant (MultiPage.run events MultiPage.initialState).
Proof.
  unfold MultiPage.run.
  generalize page_invariant_initial. generalize MultiPage.initialState.
  induction events as [| e events IH]; intros s Hinv Hvalid; cbn [fold_left].
  - exact Hinv.
  - inversion Hvalid as [| e' l He Hrest]; subst.
    apply IH; [| exact Hrest]. now apply page_invariant_step.
Qed.

Lemma reachable_pages_keep_invariant_witness :
  page_invariant
    (MultiPage.run
       [MultiPage.SliderChange childcareAI 35; MultiPage.ClickRun;
        MultiPage.PresetBalanced; MultiPage.TimerFires; MultiPage.ClickReset]
       MultiPage.initialState).
Proof.
  apply (reachable_pages_keep_invariant
           [MultiPage.SliderChange childcareAI 35; MultiPage.ClickRun;
            MultiPage.PresetBalanced; MultiPage.TimerFires; MultiPage.ClickReset]).
  repeat constructor; simpl; lia.
Defined.

Lemma pending_run_survives (mid : list MultiPage.Event) (s : MultiPage.State)
    (t : bool * CountryKey * Policies) :
  Forall (fun e => e <> MultiPage.TimerFires) mid ->
  MultiPage.isSimulating s = true -> MultiPage.timers s = [t] ->
  MultiPage.isSimulating (MultiPage.run mid s) = true
  /\ MultiPage.timers (MultiPage.run mid s) = [t].
Proof.
  unfold MultiPage.run. revert s.
  induction mid as [| e mid IH]; intros s Hmid Hsim Ht; cbn [fold_left].
  - split; assumption.
  - inversion Hmid as [| e' l He Hrest]; subst.
    apply IH; [exact Hrest | |];
      destruct e; cbn [MultiPage.handle]; try assumption; try congruence;
        try (destruct (MultiPage.compareMode s); assumption);
        try (rewrite Hsim; assumption).
Qed.

(** X12. A run started on an idle page shows, when its timer fires, the
    projection of the sliders, country and compare mode as they were at the
    click: whatever is changed in between (sliders, presets, country,
    compare mode, reset, further clicks on run) does not enter the result,
    and the panel shows one country or the two-country grid according to
    the compare mode at the click. *)
Theorem run_uses_state_at_click (s : MultiPage.State) (mid : list MultiPage.Event) :
  MultiPage.isSimulating s = false -> MultiPage.timers s = [] ->
  Forall (fun e => e <> MultiPage.TimerFires) mid ->
  let s' := MultiPage.run (MultiPage.ClickRun :: mid ++ [MultiPage.TimerFires]) s in
  MultiPage.results s'
  = Multi.runSimulation (MultiPage.compareMode s) (MultiPage.selectedCountry s)
      (MultiPage.policies s)
  /\ MultiPage.isSimulating s' = false
  /\ MultiPage.timers s' = []
  /\ MultiView.resultsPanel (MultiPage.results s')
     = if MultiPage.compareMode s
       then MultiView.Grid
              [(south_korea,
                Multi.simulateTFRImpactForCountry (MultiPage.policies s) south_korea);
               (japan, Multi.simulateTFRImpactForCountry (MultiPage.policies s) japan)]
       else MultiView.OneCountry (MultiPage.selectedCountry s)
              (Multi.simulateTFRImpactForCountry (MultiPage.policies s)
                 (MultiPage.selectedCountry s)).
Proof.
  intros Hidle Ht Hmid. cbv zeta.
  unfold MultiPage.run. cbn [fold_left MultiPage.handle].
  rewrite Hidle, fold_left_app. cbn [fold_left MultiPage.handle].
  destruct (pending_run_survives mid (MultiPage.runSimulation s)
              (MultiPage.compareMode s, MultiPage.selectedCountry s, MultiPage.policies s)
              Hmid eq_refl)
    as [_ Htimers].
  { unfold MultiPage.runSimulation; cbn. rewrite Ht. reflexivity. }
  unfold MultiPage.run in Htimers. unfold MultiPage.timerCallback.
  rewrite Htimers. cbn.
  repeat (split; [reflexivity |]).
  destruct (MultiPage.compareMode s); reflexivity.
Qed.

Lemma run_uses_state_at_click_witness :
  MultiPage.results
    (MultiPage.run
       (MultiPage.ClickRun
        :: [MultiPage.PresetAggressive; MultiPage.SelectCountry japan]
           ++ [MultiPage.TimerFires])
       MultiPage.initialState)
  = Multi.runSimulation false south_korea (mkPolicies 0 0 0 0).
Proof.
  apply (run_uses_state_at_click MultiPage.initialState
           [MultiPage.PresetAggressive; MultiPage.SelectCountry japan]).
  - reflexivity.
  - reflexivity.
  - repeat constructor; discriminate.
Defined.

(** X13. Reset does not cancel a pending run: on an idle page, run, then reset,
    then the timer leaves every slider at zero while the panel shows the
    results of the sliders as they were before the reset. *)
Theorem reset_keeps_pending_run (s : MultiPage.State) :
  MultiPage.isSimulating s = false -> MultiPage.timers s = [] ->
  let s' :=
    MultiPage.run [MultiPage.ClickRun; MultiPage.ClickReset; MultiPage.TimerFires] s in
  MultiPage.policies s' = mkPolicies 0 0 0 0
  /\ MultiPage.results s'
     = Multi.runSimulation (MultiPage.compareMode s) (MultiPage.selectedCountry s)
         (MultiPage.policies s)
  /\ MultiView.resultsPanel (MultiPage.results s') <> MultiView.Placeholder.
Proof.
  intros Hidle Ht. cbv zeta.
  unfold MultiPage.run. cbn [fold_left MultiPage.handle]. rewrite Hidle.
  unfold MultiPage.timerCallback, MultiPage.resetSimulation, MultiPage.runSimulation.
  cbn. rewrite Ht. cbn.
  split; [reflexivity |]. split; [reflexivity |].
  destruct (MultiPage.compareMode s); discriminate.
Qed.

Lemma reset_keeps_pending_run_witness :
  MultiPage.policies
    (MultiPage.run [MultiPage.ClickRun; MultiPage.ClickReset; MultiPage.TimerFires]
       (MultiPage.setPolicies MultiPage.initialState (mkPolicies 50 50 50 50)))
  = mkPolicies 0 0 0 0.
Proof.
  apply (reset_keeps_pending_run
           (MultiPage.setPolicies MultiPage.initialState (mkPolicies 50 50 50 50)));
    reflexivity.
Defined.

(** ** Further properties of the single-country page *)

Lemma single_fold_totalCost (policies : Policies) (keys : list PolicyId) (acc : Single.Acc) :
  Single.acc_totalCost (fold_left (Single.policy_step policies) keys acc)
  = Single.acc_totalCost acc + Rsum (rawCost policies) keys.
Proof.
  revert acc. induction keys as [| k keys IH]; intros acc; simpl.
  - lra.
  - rewrite IH. unfold rawCost. simpl. rewrite aiInterventions_agree. lra.
Qed.

Lemma single_loop_totalCost (country : Country) (policies : Policies) :
  Single.acc_totalCost (Single.policy_loop country policies)
  = Rsum (rawCost policies) policy_keys.
Proof.
  unfold Single.policy_loop. rewrite single_fold_totalCost.
  cbn [Single.acc_totalCost]. lra.
Qed.

Lemma single_loop_tfrImpact (country : Country) (policies : Policies) :
  Single.acc_tfrImpact (Single.policy_loop country policies)
  = Rsum (rawImpact policies) policy_keys.
Proof.
  unfold Single.policy_loop. rewrite single_fold_tfrImpact.
  cbn [Single.acc_tfrImpact]. lra.
Qed.

Lemma single_baseTFR_bounds (countryKey : CountryKey) :
  0 <= baseTFR (Single.countryData countryKey) <= 1.26.
Proof. destruct countryKey; cbn [Single.countryData baseTFR]; lra. Qed.

Lemma single_projectedTFR_uncapped (countryKey : CountryKey) (policies : Policies) :
  in_range policies ->
  Single.projectedTFR (Single.simulateTFRImpact countryKey policies)
  = baseTFR (Single.countryData countryKey)
    + saturate (Rsum (rawImpact policies) policy_keys).
Proof.
  intros Hr. rewrite single_projectedTFR_eq.
  pose proof (saturated_impact_bounds policies Hr) as Hs.
  pose proof (single_baseTFR_bounds countryKey) as Hb.
  apply Rmin_right. lra.
Qed.

Lemma single_factorReductions_get
    (countryKey : CountryKey) (policies : Policies) (policy : PolicyId) (factor : Factor) :
  declares policy factor ->
  factors_get (Single.factorReductions (Single.simulateTFRImpact countryKey policies)) factor
  = factors_get (baseFactors (Single.countryData countryKey)) factor
    * (1 - IZR (policies_get policies policy) / 100 * 0.4).
Proof.
  intros Hd. apply declares_inv in Hd.
  destruct factor; subst policy; reflexivity.
Qed.

Lemma baseFactors_agree (countryKey : CountryKey) :
  baseFactors (Single.countryData countryKey) = baseFactors (Multi.countryData countryKey).
Proof. destruct countryKey; reflexivity. Qed.

(** X14. For every country and slider vector the two pages report the same
    total cost and the same adjusted score for the three cost factors; the
    work-life-balance score is the baseline times [1 - fraction * 0.4] in
    the single-country page and times [1 + fraction * 0.4] in the
    multi-country page, with the fraction of the workplace slider. *)
Theorem single_page_shrinks_work_life_balance
    (countryKey : CountryKey) (policies : Policies) :
  let single := Single.simulateTFRImpact countryKey policies in
  let multi := Multi.simulateTFRImpactForCountry policies countryKey in
  let base := f_workLifeBalance (baseFactors (Multi.countryData countryKey)) in
  let fraction := IZR (policies_get policies workplaceAI) / 100 in
  Single.totalCost single = Multi.totalCost multi
  /\ (forall factor, factor <> workLifeBalance ->
        factors_get (Single.factorReductions single) factor
        = factors_get (Multi.factorReductions multi) factor)
  /\ f_workLifeBalance (Single.factorReductions single) = base * (1 - fraction * 0.4)
  /\ f_workLifeBalance (Multi.factorReductions multi) = base * (1 + fraction * 0.4).
Proof.
  cbv zeta. split; [| split; [| split]].
  - rewrite totalCost_eq. unfold Single.simulateTFRImpact. cbn [Single.totalCost].
    rewrite single_loop_totalCost. reflexivity.
  - intros factor Hne. destruct countryKey, factor; try reflexivity; contradiction.
  - destruct countryKey; reflexivity.
  - destruct countryKey; reflexivity.
Qed.



Lemma single_record_at (countryKey : CountryKey) (policies : Policies) (offset : nat) :
  (offset <= 10)%nat ->
  record_at (Single.projectionData (Single.simulateTFRImpact countryKey policies)) offset
  = let country := Single.countryData countryKey in
    let projectedTFR := Single.projectedTFR (Single.simulateTFRImpact countryKey policies) in
    let progress := Rmin 1 (IZR (Z.of_nat offset) / 7) in
    Some {| year := 2025 + Z.of_nat offset;
            baseline := baseTFR country;
            projected :=
              JS.toFixed3 (baseTFR country + (projectedTFR - baseTFR country) * progress);
            target := 2.1 |}.
Proof.
  intros Hle. unfold record_at, Single.simulateTFRImpact.
  cbn [Single.projectionData Single.projectedTFR].
  rewrite nth_error_map, (years_upto_nth 10 offset Hle). reflexivity.
Qed.

Lemma single_toFixed3_baseTFR (countryKey : CountryKey) :
  JS.toFixed3 (baseTFR (Single.countryData countryKey))
  = baseTFR (Single.countryData countryKey).
Proof.
  destruct countryKey; cbn [Single.countryData baseTFR].
  - rewrite (toFixed3_nearest 0.72 720); lra.
  - rewrite (toFixed3_nearest 1.26 1260); lra.
Qed.

(** X16. In the single-country page the trajectory has the eleven records of
    the year offsets 0 to 10 and none after; the record at offset 0 carries
    the baseline, and the ramp is complete from offset 7 on: the records at
    offsets 7 to 10 carry [projectedTFR] rounded to three decimals. *)
Theorem single_page_ramp_ends_at_year_7
    (countryKey : CountryKey) (policies : Policies) (offset : nat) :
  (7 <= offset <= 10)%nat ->
  let country := Single.countryData countryKey in
  let results := Single.simulateTFRImpact countryKey policies in
  record_at (Single.projectionData results) 11 = None
  /\ record_at (Single.projectionData results) 0
     = Some {| year := 2025; baseline := baseTFR country;
               projected := baseTFR country; target := 2.1 |}
  /\ record_at (Single.projectionData results) offset
     = Some {| year := 2025 + Z.of_nat offset; baseline := baseTFR country;
               projected := JS.toFixed3 (Single.projectedTFR results); target := 2.1 |}.
Proof.
  intros [Hlo Hhi]. cbv zeta. split; [| split].
  - unfold record_at. apply nth_error_None.
    unfold Single.simulateTFRImpact. cbn [Single.projectionData].
    rewrite length_map. unfold years_upto. rewrite length_map, length_seq. lia.
  - rewrite single_record_at by lia. cbv zeta.
    change (IZR (Z.of_nat 0)) with 0.
    rewrite Rmin_right by lra.
    replace (0 / 7) with 0 by lra. rewrite Rmult_0_r, Rplus_0_r.
    rewrite single_toFixed3_baseTFR. reflexivity.
  - rewrite single_record_at by lia. cbv zeta.
    assert (H7 : 7 <= IZR (Z.of_nat offset)) by (apply IZR_le; lia).
    rewrite Rmin_left by lra. rewrite Rmult_1_r.
    set (proj := Single.projectedTFR _).
    replace (baseTFR (Single.countryData countryKey)
             + (proj - baseTFR (Single.countryData countryKey)))
      with proj by lra.
    reflexivity.
Qed.

Lemma single_page_ramp_ends_at_year_7_witness :
  record_at
    (Single.projectionData (Single.simulateTFRImpact japan (mkPolicies 20 20 20 20))) 11
  = None.
Proof.
  apply (single_page_ramp_ends_at_year_7 japan (mkPolicies 20 20 20 20) 8). lia.
Defined.

(** X17. For both profiles and sliders in [0,100] the single-country projection
    also stays below 2.1, so its "Time to Target" card always reads "10+";
    it is the baseline plus the same increase as in the multi-country
    page. *)
Theorem single_page_target_never_reached (countryKey : CountryKey) (policies : Policies) :
  in_range policies ->
  let results := Single.simulateTFRImpact countryKey policies in
  Single.tfrIncrease results
  = Multi.tfrIncrease (Multi.simulateTFRImpactForCountry policies countryKey)
  /\ Single.projectedTFR results < 2.1
  /\ SingleView.timeToTarget results = "10+"%string.
Proof.
  intros Hr. cbv zeta.
  pose proof (single_projectedTFR_uncapped countryKey policies Hr) as Hp.
  pose proof (saturated_impact_bounds policies Hr) as Hs.
  pose proof (single_baseTFR_bounds countryKey) as Hb.
  assert (Hlt : Single.projectedTFR (Single.simulateTFRImpact countryKey policies) < 2.1)
    by lra.
  split; [| split; [exact Hlt |]].
  - rewrite (tfrIncrease_eq countryKey policies Hr).
    change (Single.tfrIncrease (Single.simulateTFRImpact countryKey policies))
      with (Single.projectedTFR (Single.simulateTFRImpact countryKey policies)
            - baseTFR (Single.countryData countryKey)).
    rewrite Hp. lra.
  - unfold SingleView.timeToTarget.
    destruct (Rle_dec 2.1 _) as [Hge | _]; [lra | reflexivity].
Qed.

Lemma single_page_target_never_reached_witness :
  SingleView.timeToTarget (Single.simulateTFRImpact japan (mkPolicies 100 100 100 100))
  = "10+"%string.
Proof.
  apply (single_page_target_never_reached japan (mkPolicies 100 100 100 100)).
  intros []; simpl; lia.
Defined.

Lemma demographics_agree (countryKey : CountryKey) :
  demographics (Single.countryData countryKey) = demographics (Multi.countryData countryKey).
Proof. destruct countryKey; reflexivity. Qed.



(** X19. In the single-country page too, with sliders in [0,100], [roi] is
    [NaN] when every slider is at zero and a positive finite number
    otherwise, never an infinity. *)
Theorem single_page_roi_never_infinite (countryKey : CountryKey) (policies : Policies) :
  in_range policies ->
  let results := Single.simulateTFRImpact countryKey policies in
  (~ active policies /\ Single.roi results = JS.NaN)
  \/ (active policies /\ exists q, Single.roi results = JS.Finite q /\ 0 < q).
Proof.
  intros Hr. cbv zeta.
  pose proof (single_projectedTFR_uncapped countryKey policies Hr) as Hp.
  pose proof (demographics_positive countryKey) as [Hpop Hgdp].
  rewrite <- demographics_agree in Hpop, Hgdp.
  unfold Single.simulateTFRImpact in *.
  cbn [Single.roi Single.projectedTFR] in *.
  rewrite Hp, single_loop_totalCost.
  set (pop := population _) in *. set (gdp := gdpPerCapita _) in *.
  set (base := baseTFR _) in *.
  destruct (active_dec policies Hr) as [Ha | Hz].
  - right. split; [exact Ha |].
    pose proof (active_impact_positive policies Hr Ha) as Hi.
    pose proof (active_cost_positive policies Hr Ha) as Hc.
    pose proof (saturate_pos _ Hi) as Hs.
    rewrite div_nonzero by lra.
    eexists. split; [reflexivity |].
    apply Rdiv_lt_0_compat; [| exact Hc].
    assert (0 < (base + saturate (Rsum (rawImpact policies) policy_keys) - base) * pop)
      by nra.
    assert (0 < (base + saturate (Rsum (rawImpact policies) policy_keys) - base) * pop
                * 10000 * gdp) by nra.
    lra.
  - left. subst policies. split.
    + intros [[] Hq]; cbn in Hq; lia.
    + change (mkPolicies 0 0 0 0) with Multi.initialPolicies.
      rewrite Rsum_rawImpact_zero, Rsum_rawCost_zero, saturate_0.
      replace ((base + 0 - base) * pop * 10000 * gdp * 0.7) with 0 by lra.
      apply div_zero_zero.
Qed.

Lemma single_page_roi_never_infinite_witness :
  (~ active (mkPolicies 0 0 0 0)
   /\ Single.roi (Single.simulateTFRImpact japan (mkPolicies 0 0 0 0)) = JS.NaN)
  \/ (active (mkPolicies 0 0 0 0)
      /\ exists q,
           Single.roi (Single.simulateTFRImpact japan (mkPolicies 0 0 0 0)) = JS.Finite q
           /\ 0 < q).
Proof.
  apply (single_page_roi_never_infinite japan (mkPolicies 0 0 0 0)).
  intros []; simpl; lia.
Defined.
